(** * minimal-agent: the tool layer of [src/minimal_agent/tools.py]

    A shallow embedding of the five tool classes of [tools.py]
    ([FinalAnswerTool], [VisitWebpageTool], [DuckDuckGoSearchTool],
    [TavilySearchTool], [WebSearchTool]) and the properties the specification
    states about them.

    Conventions of the embedding:
    - a Python [str] is a [string]; its characters are the 8-bit [ascii];
    - a Python [int] is a [Z];
    - a Python [dict] with string keys is a [gmap string _];
    - a raised exception is a value [exn]; a computation that may raise
      returns an [outcome];
    - calls that leave the process (search back ends, HTTP, [print]) are
      recorded, in order, in a trace of [event]s that is threaded through
      every call ([M]). *)

From Stdlib Require Import ZArith String Ascii List Bool Lia.
From stdpp Require Import base option list gmap strings.

Local Open Scope string_scope.
Local Open Scope Z_scope.

(** ** Python values and strings *)

(** Values a caller can pass as a tool argument. *)
Inductive pyval :=
| PNone
| PBool (b : bool)
| PInt (z : Z)
| PStr (s : string).

(** The line break, ["\n"]. *)
Definition nl_char : ascii := ascii_of_nat 10.
Definition nl : string := String nl_char EmptyString.

(** [sep.join(l)]. *)
Definition py_join (sep : string) (l : list string) : string :=
  String.concat sep l.

(** [l[:n]] on a list: a negative [n] counts from the end. *)
Definition slice_to {A : Type} (n : Z) (l : list A) : list A :=
  if 0 <=? n then take (Z.to_nat n) l
  else take (Z.to_nat (Z.of_nat (length l) + n)) l.

(** [s[:n]] on a string. *)
Definition str_slice_to (n : Z) (s : string) : string :=
  string_of_list_ascii (slice_to n (list_ascii_of_string s)).

(** ** Exceptions

    An exception carries the method resolution order of its class, as a
    list of class names, and the text [str(e)].  [except C] catches [e]
    exactly when [C] is in the order of [e]'s class. *)

Record exn := Exn { exn_mro : list string; exn_str : string }.

Definition isinstance (e : exn) (cls : string) : bool :=
  existsb (String.eqb cls) (exn_mro e).

Module Cls.
Definition BaseException := "BaseException".
Definition Exception := "Exception".
Definition ImportError := "ImportError".
Definition KeyError := "KeyError".
Definition TypeError := "TypeError".
Definition AttributeError := "AttributeError".
Definition DuckDuckGoSearchException :=
  "duckduckgo_search.exceptions.DuckDuckGoSearchException".
Definition RequestException := "requests.exceptions.RequestException".
Definition Timeout := "requests.exceptions.Timeout".
End Cls.

(** [Exception(msg)] and the built-in subclasses the code can raise. *)
Definition new_Exception (msg : string) : exn :=
  Exn [Cls.Exception; Cls.BaseException] msg.
Definition new_ImportError (msg : string) : exn :=
  Exn [Cls.ImportError; Cls.Exception; Cls.BaseException] msg.
Definition new_TypeError (msg : string) : exn :=
  Exn [Cls.TypeError; Cls.Exception; Cls.BaseException] msg.
Definition new_AttributeError (msg : string) : exn :=
  Exn [Cls.AttributeError; Cls.Exception; Cls.BaseException] msg.
(** [str(KeyError(k))] is the quoted key. *)
Definition new_KeyError (key : string) : exn :=
  Exn [Cls.KeyError; "LookupError"; Cls.Exception; Cls.BaseException]
      ("'" +:+ key +:+ "'").

Inductive outcome (A : Type) :=
| Ret (a : A)
| Raise (e : exn).
Arguments Ret {A} a.
Arguments Raise {A} e.

#[global] Instance outcome_ret : MRet outcome := fun _ a => Ret a.
#[global] Instance outcome_bind : MBind outcome := fun _ _ f m =>
  match m with
  | Ret a => f a
  | Raise e => Raise e
  end.

(** A list comprehension whose element expression may raise: the first
    exception ends it. *)
Fixpoint comprehension {A B : Type} (f : A -> outcome B) (l : list A)
  : outcome (list B) :=
  match l with
  | [] => Ret []
  | x :: l' =>
      match f x with
      | Raise e => Raise e
      | Ret y =>
          match comprehension f l' with
          | Raise e => Raise e
          | Ret ys => Ret (y :: ys)
          end
      end
  end.

(** ** Effects: the trace of outward calls *)

Inductive event :=
| EvDDGText (query : pyval) (max_results : Z)
| EvTavilySearch (query : pyval) (include_raw_content : string)
| EvHttpGet (url : pyval) (timeout : Z)
| EvPrint (line : string).

Definition M (A : Type) : Type := list event -> outcome A * list event.

Definition ret {A : Type} (a : A) : M A := fun tr => (Ret a, tr).
Definition raise {A : Type} (e : exn) : M A := fun tr => (Raise e, tr).
Definition bind {A B : Type} (m : M A) (k : A -> M B) : M B := fun tr =>
  match m tr with
  | (Ret a, tr') => k a tr'
  | (Raise e, tr') => (Raise e, tr')
  end.
(** A pure computation that may raise. *)
Definition lift {A : Type} (r : outcome A) : M A := fun tr => (r, tr).
(** An outward call: it is recorded, then yields what the callee yields. *)
Definition call_out {A : Type} (ev : event) (r : outcome A) : M A :=
  fun tr => (r, (tr ++ [ev])%list).
(** [try: m  except ... as e: handler e]; a [handler] that matches no
    clause re-raises [e]. *)
Definition try_except {A : Type} (m : M A) (handler : exn -> M A) : M A :=
  fun tr =>
    match m tr with
    | (Ret a, tr') => (Ret a, tr')
    | (Raise e, tr') => handler e tr'
    end.

Declare Scope py_scope.
Delimit Scope py_scope with py.
Notation "x <- m ;; k" := (bind m (fun x => k))
  (at level 100, m at next level, right associativity) : py_scope.
Notation "m ;;; k" := (bind m (fun _ => k))
  (at level 100, right associativity) : py_scope.
Local Open Scope py_scope.

Definition print (line : string) : M unit := call_out (EvPrint line) (Ret tt).

(** How often the keyed back end, and the free one, were called. *)
Definition is_tavily_call (ev : event) : bool :=
  match ev with EvTavilySearch _ _ => true | _ => false end.
Definition is_ddg_call (ev : event) : bool :=
  match ev with EvDDGText _ _ => true | _ => false end.
Definition tavily_calls (tr : list event) : nat :=
  length (filter (fun ev => is_tavily_call ev = true) tr).
Definition ddg_calls (tr : list event) : nat :=
  length (filter (fun ev => is_ddg_call ev = true) tr).

(** ** FinalAnswerTool (tools.py, lines 4-13) *)

Definition FinalAnswerTool_call {A : Type} (answer : A) : M A := ret answer.

(** ** Search results *)

(** One hit, as the back ends return it: a dict of string fields. *)
Abbreviation hit := (gmap string string).

(** [d[k]]. *)
Definition getitem {V : Type} (d : gmap string V) (k : string) : outcome V :=
  match d !! k with
  | Some v => Ret v
  | None => Raise (new_KeyError k)
  end.

Definition heading : string := "## Search Results" +:+ nl +:+ nl.
Definition no_results : exn :=
  new_Exception "No results found! Try a less restrictive/shorter query.".

(** ** DuckDuckGoSearchTool (tools.py, lines 64-91) *)

(** The [DDGS] client: [text(query, max_results=...)]. *)
Record DDGS := { ddgs_text : pyval -> Z -> outcome (list hit) }.

Record DuckDuckGoSearchTool := {
  ddg_max_results : Z;
  ddgs : DDGS
}.

(** Line 88: [f"[{result['title']}]({result['href']})\n{result['body']}"]. *)
Definition ddg_postprocess (result : hit) : outcome string :=
  title ← getitem result "title";
  href ← getitem result "href";
  body ← getitem result "body";
  Ret ("[" +:+ title +:+ "](" +:+ href +:+ ")" +:+ nl +:+ body).

(** Lines 85-91, on the list the back end returned. *)
Definition ddg_format (results : list hit) : outcome string :=
  if (length results =? 0)%nat then Raise no_results
  else
    postprocessed_results ← comprehension ddg_postprocess results;
    Ret (heading +:+ py_join (nl +:+ nl) postprocessed_results).

Definition DuckDuckGoSearchTool_call (self : DuckDuckGoSearchTool)
    (query : pyval) : M string :=
  results <- call_out (EvDDGText query (ddg_max_results self))
                      (ddgs_text (ddgs self) query (ddg_max_results self)) ;;
  lift (ddg_format results).

(** ** TavilySearchTool (tools.py, lines 94-124) *)

(** What a field of the Tavily response dict can hold: a string (the echoed
    query), the list of hits (under ["results"]), or a value of some other
    type (the response time, an absent answer), of which only the name of
    its type matters. *)
Inductive field :=
| FStr (s : string)
| FHits (l : list hit)
| FOther (type_name : string).

(** The [TavilyClient]: [search(query, include_raw_content=...)] returns
    the response dict. *)
Record TavilyClient := {
  tavily_search : pyval -> string -> outcome (gmap string field)
}.

Record TavilySearchTool := {
  tavily_max_results : Z;
  client : TavilyClient
}.

(** Line 122: [f"[{result['title']}]({result['content']}"]. *)
Definition tavily_postprocess (result : hit) : outcome string :=
  title ← getitem result "title";
  content ← getitem result "content";
  Ret ("[" +:+ title +:+ "](" +:+ content).

(** Lines 120-124, on the value stored under ["results"].  A string can be
    sliced and iterated too, but indexing one of its characters with
    ['title'] raises; a value of another type cannot be sliced. *)
Definition tavily_render (max_results : Z) (f : field) : outcome string :=
  match f with
  | FHits l =>
      postprocessed_results ←
        comprehension tavily_postprocess (slice_to max_results l);
      Ret (heading +:+ py_join (nl +:+ nl) postprocessed_results)
  | FStr s =>
      match str_slice_to max_results s with
      | EmptyString => Ret (heading +:+ py_join (nl +:+ nl) [])
      | String _ _ =>
          Raise (new_TypeError "string indices must be integers, not 'str'")
      end
  | FOther type_name =>
      Raise (new_TypeError
               ("'" +:+ type_name +:+ "' object is not subscriptable"))
  end.

(** Lines 118-124, on the dict the client returned: [len(results)] is the
    number of keys of that dict. *)
Definition tavily_format (max_results : Z) (results : gmap string field)
  : outcome string :=
  if (size results =? 0)%nat then Raise no_results
  else
    hits ← getitem results "results";
    tavily_render max_results hits.

Definition TavilySearchTool_call (self : TavilySearchTool) (query : pyval)
  : M string :=
  results <- call_out (EvTavilySearch query "text")
                      (tavily_search (client self) query "text") ;;
  lift (tavily_format (tavily_max_results self) results).

(** ** WebSearchTool (tools.py, lines 127-149) *)

(** The attribute [tavily] exists only when the constructor set it. *)
Record WebSearchTool := {
  ddg : DuckDuckGoSearchTool;
  tavily : option TavilySearchTool
}.

(** [self.tavily]. *)
Definition getattr_tavily (self : WebSearchTool) : outcome TavilySearchTool :=
  match tavily self with
  | Some t => Ret t
  | None =>
      Raise (new_AttributeError
               "'WebSearchTool' object has no attribute 'tavily'")
  end.

Definition WebSearchTool_call (self : WebSearchTool) (query : pyval)
  : M string :=
  try_except (DuckDuckGoSearchTool_call (ddg self) query)
    (fun e =>
       if isinstance e Cls.DuckDuckGoSearchException then
         print ("Error using DuckDuckGo search: " +:+ exn_str e
                +:+ ". Trying Tavily search...") ;;;
         t <- lift (getattr_tavily self) ;;
         TavilySearchTool_call t query
       else raise e).

(** ** Construction (the [__init__] methods)

    What the import statements inside the constructors and inside
    [VisitWebpageTool.__call__] find: each import yields the package's
    entry points or raises. *)

(** A [requests] response: its body and its status check. *)
Record Response := {
  response_text : string;
  raise_for_status : outcome unit
}.

(** [requests.get(url, timeout=...)] and [markdownify(html)]. *)
Record web_modules := {
  requests_get : pyval -> Z -> outcome Response;
  markdownify : string -> outcome string
}.

Record packages := {
  (** [from duckduckgo_search import DDGS], then [DDGS()] *)
  import_DDGS : outcome (outcome DDGS);
  (** [from tavily import TavilyClient], then [TavilyClient(key)] *)
  import_TavilyClient : outcome (string -> outcome TavilyClient);
  (** lines 33-38 of [VisitWebpageTool.__call__] *)
  import_web : outcome web_modules
}.

(** [try: import ...  except ImportError as e: raise ImportError(msg) from e] *)
Definition import_or {A : Type} (imported : outcome A) (msg : string)
  : outcome A :=
  match imported with
  | Ret a => Ret a
  | Raise e =>
      if isinstance e Cls.ImportError then Raise (new_ImportError msg)
      else Raise e
  end.

Definition DuckDuckGoSearchTool_init (pk : packages) (max_results : Z)
  : outcome DuckDuckGoSearchTool :=
  new_DDGS ← import_or (import_DDGS pk)
    "You must install package `duckduckgo_search` to run this tool: for instance run `pip install duckduckgo-search`.";
  c ← new_DDGS;
  Ret {| ddg_max_results := max_results; ddgs := c |}.

Definition TavilySearchTool_init (pk : packages) (tavily_api_key : string)
    (max_results : Z) : outcome TavilySearchTool :=
  new_TavilyClient ← import_or (import_TavilyClient pk)
    "You must install package `tavily-python` to run this tool: for instance run `uv add tavily-python`.";
  c ← new_TavilyClient tavily_api_key;
  Ret {| tavily_max_results := max_results; client := c |}.

(** [tavily_api_key: str | None]; the keyed adapter is built only for a
    [str]. *)
Definition WebSearchTool_init (pk : packages) (max_results : Z)
    (tavily_api_key : option string) : outcome WebSearchTool :=
  d ← DuckDuckGoSearchTool_init pk max_results;
  match tavily_api_key with
  | Some key =>
      t ← TavilySearchTool_init pk key max_results;
      Ret {| ddg := d; tavily := Some t |}
  | None => Ret {| ddg := d; tavily := None |}
  end.

(** ** VisitWebpageTool (tools.py, lines 16-61) *)

(** [str.isspace] on the 8-bit characters: tab to carriage return, the four
    separators 28-31, and the space. *)
Definition py_isspace (c : ascii) : bool :=
  let n := nat_of_ascii c in
  ((9 <=? n) && (n <=? 13) || (28 <=? n) && (n <=? 32))%nat.

Fixpoint lstrip (s : string) : string :=
  match s with
  | EmptyString => EmptyString
  | String c s' => if py_isspace c then lstrip s' else s
  end.

Fixpoint rstrip (s : string) : string :=
  match s with
  | EmptyString => EmptyString
  | String c s' =>
      match rstrip s' with
      | EmptyString =>
          if py_isspace c then EmptyString else String c EmptyString
      | r => String c r
      end
  end.

(** [s.strip()]. *)
Definition strip (s : string) : string := rstrip (lstrip s).

Definition is_nl (c : ascii) : bool := Ascii.eqb c nl_char.

(** [n] line breaks. *)
Fixpoint nls (n : nat) : string :=
  match n with
  | O => EmptyString
  | S n' => String nl_char (nls n')
  end.

(** What [re.sub(r"\n{3,}", "\n\n", _)] writes for a maximal run of [run]
    line breaks: the pattern matches the whole run when it has three or
    more, and nothing of it otherwise. *)
Definition flush_run (run : nat) : string :=
  if (3 <=? run)%nat then nls 2 else nls run.

(** The scan of [re.sub(r"\n{3,}", "\n\n", s)], left to right; [run] counts
    the line breaks of the current run read so far. *)
Fixpoint collapse_from (run : nat) (s : string) : string :=
  match s with
  | EmptyString => flush_run run
  | String c s' =>
      if is_nl c then collapse_from (S run) s'
      else flush_run run +:+ String c (collapse_from 0 s')
  end.

(** Line 52. *)
Definition collapse_line_breaks (s : string) : string := collapse_from 0 s.

(** The first [n] characters of [s]. *)
Fixpoint str_take (n : nat) (s : string) : string :=
  match n, s with
  | S n', String c s' => String c (str_take n' s')
  | _, _ => EmptyString
  end.

(** Modelled from the spec: [truncate_content] is imported from
    [smolagents.utils] (line 38), a package that is not part of the
    sources.  The specification (4.2, step 4) says of it: "Truncate the
    result to at most [max_output_length] characters".  It is modelled as
    keeping the first [max_length] characters. *)
Definition truncate_content (content : string) (max_length : Z) : string :=
  if Z.of_nat (String.length content) <=? max_length then content
  else str_take (Z.to_nat max_length) content.

Record VisitWebpageTool := { max_output_length : Z }.

(** Lines 27-29; the default is 40000. *)
Definition VisitWebpageTool_init (max_output_length : option Z)
  : VisitWebpageTool :=
  {| max_output_length := default 40000 max_output_length |}.

(** Lines 44-54: the body of the second [try]. *)
Definition visit_body (m : web_modules) (self : VisitWebpageTool)
    (url : pyval) : M string :=
  response <- call_out (EvHttpGet url 20) (requests_get m url 20) ;;
  lift (raise_for_status response) ;;;
  converted <- lift (markdownify m (response_text response)) ;;
  let markdown_content := strip converted in
  let markdown_content := collapse_line_breaks markdown_content in
  ret (truncate_content markdown_content (max_output_length self)).

(** Lines 56-61: the three [except] clauses, tried in order. *)
Definition visit_handler (e : exn) : M string :=
  if isinstance e Cls.Timeout then
    ret "The request timed out. Please try again later or check the URL."
  else if isinstance e Cls.RequestException then
    ret ("Error fetching the webpage: " +:+ exn_str e)
  else if isinstance e Cls.Exception then
    ret ("An unexpected error occurred: " +:+ exn_str e)
  else raise e.

Definition VisitWebpageTool_call (pk : packages) (self : VisitWebpageTool)
    (url : pyval) : M string :=
  m <- lift (import_or (import_web pk)
    "You must install packages `markdownify` and `requests` to run this tool: for instance run `pip install markdownify requests`.") ;;
  try_except (visit_body m self url) visit_handler.

(** Whether [s] has three line breaks in a row. *)
Definition starts_with_2nl (s : string) : bool :=
  match s with
  | String a (String b _) => is_nl a && is_nl b
  | _ => false
  end.

Fixpoint has_run3 (s : string) : bool :=
  match s with
  | EmptyString => false
  | String c s' => is_nl c && starts_with_2nl s' || has_run3 s'
  end.

(** ** The tools as one family: descriptor and invocation *)

Inductive tool :=
| FinalAnswer
| VisitWebpage (t : VisitWebpageTool)
| DuckDuckGoSearch (t : DuckDuckGoSearchTool)
| TavilySearch (t : TavilySearchTool)
| WebSearch (t : WebSearchTool).

(** The class attribute [name]. *)
Definition tool_name (t : tool) : string :=
  match t with
  | FinalAnswer => "final_answer"
  | VisitWebpage _ => "visit_webpage"
  | DuckDuckGoSearch _ | TavilySearch _ | WebSearch _ => "web_search"
  end.

(** One entry of the class attribute [inputs]. *)
Record input_spec := { input_type : string; input_description : string }.

(** The class attribute [inputs]. *)
Definition tool_inputs (t : tool) : gmap string input_spec :=
  match t with
  | FinalAnswer =>
      {[ "answer" := {| input_type := "any";
                        input_description := "The final answer to the problem" |} ]}
  | VisitWebpage _ =>
      {[ "url" := {| input_type := "string";
                     input_description := "The url of the webpage to visit." |} ]}
  | DuckDuckGoSearch _ | TavilySearch _ | WebSearch _ =>
      {[ "query" := {| input_type := "string";
                       input_description := "The search query to perform." |} ]}
  end.

(** The class attribute [output_type]. *)
Definition tool_output_type (t : tool) : string :=
  match t with
  | FinalAnswer => "any"
  | _ => "string"
  end.

(** The one parameter of [__call__], after [self]. *)
Definition tool_param (t : tool) : string :=
  match t with
  | FinalAnswer => "answer"
  | VisitWebpage _ => "url"
  | DuckDuckGoSearch _ | TavilySearch _ | WebSearch _ => "query"
  end.

(** [tool(arg)]: the body of [__call__]. *)
Definition tool_call (pk : packages) (t : tool) (arg : pyval) : M pyval :=
  match t with
  | FinalAnswer => FinalAnswerTool_call arg
  | VisitWebpage v => s <- VisitWebpageTool_call pk v arg ;; ret (PStr s)
  | DuckDuckGoSearch d => s <- DuckDuckGoSearchTool_call d arg ;; ret (PStr s)
  | TavilySearch v => s <- TavilySearchTool_call v arg ;; ret (PStr s)
  | WebSearch w => s <- WebSearchTool_call w arg ;; ret (PStr s)
  end.

(** The call of a tool with the dict [args] as its keyword arguments:
    Python binds the keywords to the parameter of [__call__] and raises
    [TypeError] unless the one keyword is the name of that parameter; the
    bound value reaches the body as it is. *)
Definition invoke (pk : packages) (t : tool) (args : gmap string pyval)
  : M pyval :=
  match args !! tool_param t with
  | Some v =>
      if (size args =? 1)%nat then tool_call pk t v
      else raise (new_TypeError "__call__() got an unexpected keyword argument")
  | None =>
      if (size args =? 0)%nat then
        raise (new_TypeError
                 ("__call__() missing 1 required positional argument: '"
                  +:+ tool_param t +:+ "'"))
      else raise (new_TypeError "__call__() got an unexpected keyword argument")
  end.

(** The specification's notion of a matching argument set (4.1: the
    supplied names and coarse types match the declared input schema).
    Nothing in [tools.py] computes it; it is what C9 is stated with. *)

(** Whether a value has the coarse type an [inputs] entry declares. *)
Definition has_coarse_type (ty : string) (v : pyval) : bool :=
  if String.eqb ty "any" then true
  else if String.eqb ty "string" then
    match v with PStr _ => true | _ => false end
  else false.

(** Whether an argument has a declared name and its declared coarse
    type. *)
Definition arg_ok (schema : gmap string input_spec) (k : string) (v : pyval)
  : bool :=
  match schema !! k with
  | Some sp => has_coarse_type (input_type sp) v
  | None => false
  end.

(** Whether an argument set matches a declared input schema: the same
    names, and every value of the declared coarse type. *)
Definition args_match (schema : gmap string input_spec)
    (args : gmap string pyval) : bool :=
  bool_decide (dom args = dom schema)
  && bool_decide (map_Forall (fun k v => arg_ok schema k v = true) args).

(** ** Test doubles

    Concrete back ends, packages and tools, used to run the definitions on
    inputs. *)

Module Doubles.

(** A hit that carries the fields of both providers. *)
Definition paris : hit :=
  {[ "title" := "Paris"; "href" := "https://x"; "url" := "https://x";
     "body" := "Paris is the capital";
     "content" := "Paris is the capital" ]}.

(** A free back end that answers every query with [hits]. *)
Definition ddgs_returning (hits : list hit) : DDGS :=
  {| ddgs_text := fun _ _ => Ret hits |}.

(** A free back end that fails every query with [e]. *)
Definition ddgs_raising (e : exn) : DDGS :=
  {| ddgs_text := fun _ _ => Raise e |}.

(** A keyed back end that answers every query with a response dict
    holding [hits] under ["results"]. *)
Definition tavily_returning (hits : list hit) : TavilyClient :=
  {| tavily_search := fun _ _ =>
       Ret {[ "query" := FStr "capital of France";
              "results" := FHits hits ]} |}.

Definition ddg_tool (hits : list hit) : DuckDuckGoSearchTool :=
  {| ddg_max_results := 10; ddgs := ddgs_returning hits |}.

Definition tavily_tool (hits : list hit) : TavilySearchTool :=
  {| tavily_max_results := 10; client := tavily_returning hits |}.

(** The rate-limit fault of the free provider, a subclass of
    [DuckDuckGoSearchException]. *)
Definition ratelimit : exn :=
  Exn ["duckduckgo_search.exceptions.RatelimitException";
       Cls.DuckDuckGoSearchException; Cls.Exception; Cls.BaseException]
      "202 Ratelimit".

(** A fault that is not of the free provider's class. *)
Definition dns_failure : exn :=
  Exn ["socket.gaierror"; "OSError"; Cls.Exception; Cls.BaseException]
      "Name or service not known".

(** The timeout of [requests]. *)
Definition read_timeout : exn :=
  Exn ["requests.exceptions.ReadTimeout"; Cls.Timeout;
       Cls.RequestException; "OSError"; Cls.Exception; Cls.BaseException]
      "Read timed out. (read timeout=20)".

(** A page whose status check passes. *)
Definition ok_page (body : string) : Response :=
  {| response_text := body; raise_for_status := Ret tt |}.

(** A converter that leaves the text as it is. *)
Definition web_returning (body : string) : web_modules :=
  {| requests_get := fun _ _ => Ret (ok_page body);
     markdownify := fun html => Ret html |}.

Definition web_raising (e : exn) : web_modules :=
  {| requests_get := fun _ _ => Raise e;
     markdownify := fun html => Ret html |}.

(** All packages installed, with the given back ends. *)
Definition installed (d : DDGS) (t : TavilyClient) (w : web_modules)
  : packages :=
  {| import_DDGS := Ret (Ret d);
     import_TavilyClient := Ret (fun _ => Ret t);
     import_web := Ret w |}.

(** The search packages installed, [markdownify] missing. *)
Definition no_markdownify (d : DDGS) (t : TavilyClient) : packages :=
  {| import_DDGS := Ret (Ret d);
     import_TavilyClient := Ret (fun _ => Ret t);
     import_web :=
       Raise (new_ImportError "No module named 'markdownify'") |}.

Definition a_query : pyval := PStr "capital of France".
Definition a_url : pyval := PStr "https://x".

End Doubles.

(** ** The entry point (run_agent.py) *)

(** Lines 9 and 15-18: the tools handed to the agent.  [environ] is the
    process environment after [load_dotenv]; [os.environ.get] yields [None]
    for a variable that is not set.  The [Agent] that receives the list is
    not part of the sources. *)
Definition run_agent_tools (pk : packages) (environ : gmap string string)
  : outcome (list tool) :=
  let tavily_api_key := environ !! "TAVILY_API_KEY" in
  w ← WebSearchTool_init pk 10 tavily_api_key;
  Ret [WebSearch w; VisitWebpage (VisitWebpageTool_init (Some 1000))].

(** ** Notions used to state further properties *)

(** The characters of [s] that are no line breaks, in order. *)
Fixpoint text_chars (s : string) : string :=
  match s with
  | EmptyString => EmptyString
  | String c s' =>
      if is_nl c then text_chars s' else String c (text_chars s')
  end.

(** How often a page was requested. *)
Definition is_http_get (ev : event) : bool :=
  match ev with EvHttpGet _ _ => true | _ => false end.
Definition http_gets (tr : list event) : nat :=
  length (filter (fun ev => is_http_get ev = true) tr).

(** ** Further test doubles *)

Module Cases.

(** A hit of the free provider without its link. *)
Definition no_href : hit :=
  {[ "title" := "Paris"; "body" := "Paris is the capital" ]}.

(** A hit of the keyed provider. *)
Definition lyon : hit :=
  {[ "title" := "Lyon"; "url" := "https://y"; "content" := "Lyon is a city" ]}.

(** A hit of the keyed provider without its content. *)
Definition no_content : hit := {[ "title" := "Nice" ]}.

(** The status fault of [requests]. *)
Definition http_error : exn :=
  Exn ["requests.exceptions.HTTPError"; Cls.RequestException; "OSError";
       Cls.Exception; Cls.BaseException]
      "404 Client Error: Not Found for url: https://x".

(** A fault of the converter. *)
Definition recursion_error : exn :=
  Exn ["RecursionError"; "RuntimeError"; Cls.Exception; Cls.BaseException]
      "maximum recursion depth exceeded".

(** An interrupt: not an [Exception]. *)
Definition keyboard_interrupt : exn :=
  Exn ["KeyboardInterrupt"; Cls.BaseException] "".

(** A page whose status check fails. *)
Definition missing_page : Response :=
  {| response_text := "Not Found"; raise_for_status := Raise http_error |}.

Definition web_with (get : outcome Response) (convert : outcome string)
  : web_modules :=
  {| requests_get := fun _ _ => get; markdownify := fun _ => convert |}.

(** A keyed back end that answers every query with the dict [response]. *)
Definition tavily_answering (response : gmap string field) : TavilySearchTool :=
  {| tavily_max_results := 10;
     client := {| tavily_search := fun _ _ => Ret response |} |}.

(** The free provider's package installed, [tavily-python] missing. *)
Definition no_tavily (d : DDGS) : packages :=
  {| import_DDGS := Ret (Ret d);
     import_TavilyClient := Raise (new_ImportError "No module named 'tavily'");
     import_web := Ret (Doubles.web_returning "") |}.

End Cases.

(** * Properties *)

(** ** The trace *)

Section Trace.

Lemma tavily_calls_snoc (tr : list event) (ev : event) :
  is_tavily_call ev = false ->
  tavily_calls (tr ++ [ev])%list = tavily_calls tr.
Proof.
  intros Hev. unfold tavily_calls.
  rewrite filter_app, length_app.
  rewrite filter_cons_False, filter_nil by (rewrite Hev; discriminate).
  simpl. lia.
Qed.

Lemma ddg_call_trace (self : DuckDuckGoSearchTool) (query : pyval)
    (tr tr' : list event) (r : outcome string) :
  DuckDuckGoSearchTool_call self query tr = (r, tr') ->
  tr' = (tr ++ [EvDDGText query (ddg_max_results self)])%list.
Proof.
  unfold DuckDuckGoSearchTool_call, bind, call_out, lift.
  destruct (ddgs_text _ _ _); intros [= _ <-]; reflexivity.
Qed.

Lemma ddg_call_no_tavily (self : DuckDuckGoSearchTool) (query : pyval)
    (tr tr' : list event) (r : outcome string) :
  DuckDuckGoSearchTool_call self query tr = (r, tr') ->
  tavily_calls tr' = tavily_calls tr.
Proof.
  intros ->%ddg_call_trace. now apply tavily_calls_snoc.
Qed.

End Trace.

(** ** The free-tier adapter *)

(** The adapter succeeds only on a back end answer with at least one hit. *)
Lemma ddg_success_has_results (self : DuckDuckGoSearchTool) (query : pyval)
    (tr tr' : list event) (out : string) :
  DuckDuckGoSearchTool_call self query tr = (Ret out, tr') ->
  exists results,
    ddgs_text (ddgs self) query (ddg_max_results self) = Ret results
    /\ results <> [] /\ ddg_format results = Ret out.
Proof.
  unfold DuckDuckGoSearchTool_call, bind, call_out, lift.
  destruct (ddgs_text _ _ _) as [results|e]; [|discriminate].
  intros [= Hfmt _]. exists results. split; [reflexivity|].
  split; [|exact Hfmt].
  intros ->. discriminate Hfmt.
Qed.

(** Zero hits from the free back end: the adapter raises. *)
Lemma ddg_zero_results_raises (self : DuckDuckGoSearchTool) (query : pyval)
    (tr : list event) :
  ddgs_text (ddgs self) query (ddg_max_results self) = Ret [] ->
  DuckDuckGoSearchTool_call self query tr
  = (Raise no_results, (tr ++ [EvDDGText query (ddg_max_results self)])%list).
Proof.
  intros H. unfold DuckDuckGoSearchTool_call, bind, call_out, lift.
  rewrite H. reflexivity.
Qed.

Lemma no_results_is_not_outage :
  isinstance no_results Cls.DuckDuckGoSearchException = false.
Proof. reflexivity. Qed.

(** ** The composite search tool *)

(** C1. Whenever the free-tier adapter succeeds on a query (which it does
    only with at least one result), the composite tool returns exactly the
    adapter's formatted output, leaves the same trace as the adapter alone,
    and makes no call to the keyed back end. *)
Theorem web_search_primary_success (self : WebSearchTool) (query : pyval)
    (tr tr' : list event) (out : string) :
  DuckDuckGoSearchTool_call (ddg self) query tr = (Ret out, tr') ->
  WebSearchTool_call self query tr = (Ret out, tr')
  /\ tavily_calls tr' = tavily_calls tr.
Proof.
  intros H. split.
  - unfold WebSearchTool_call, try_except. rewrite H. reflexivity.
  - eapply ddg_call_no_tavily, H.
Qed.

Lemma web_search_primary_success_witness :
  let self := {| ddg := Doubles.ddg_tool [Doubles.paris];
                 tavily := Some (Doubles.tavily_tool [Doubles.paris]) |} in
  let out := "## Search Results" +:+ nl +:+ nl +:+ "[Paris](https://x)"
             +:+ nl +:+ "Paris is the capital" in
  WebSearchTool_call self Doubles.a_query []
  = (Ret out, [EvDDGText Doubles.a_query 10])
  /\ tavily_calls [EvDDGText Doubles.a_query 10] = tavily_calls [].
Proof.
  intros self out.
  apply (web_search_primary_success self Doubles.a_query []).
  vm_compute. reflexivity.
Defined.

(** X5. With a keyed adapter attached, an outage fault of the free-tier
    adapter hands the same query to the keyed adapter, after one diagnostic
    line; what the keyed adapter yields is what the call yields. *)
Lemma web_search_fallback_uses_keyed (self : WebSearchTool)
    (t : TavilySearchTool) (query : pyval) (tr tr' : list event) (e : exn) :
  tavily self = Some t ->
  DuckDuckGoSearchTool_call (ddg self) query tr = (Raise e, tr') ->
  isinstance e Cls.DuckDuckGoSearchException = true ->
  WebSearchTool_call self query tr
  = TavilySearchTool_call t query
      (tr' ++ [EvPrint ("Error using DuckDuckGo search: " +:+ exn_str e
                        +:+ ". Trying Tavily search...")])%list.
Proof.
  intros Ht H Hcls.
  unfold WebSearchTool_call, try_except. rewrite H, Hcls.
  unfold bind, print, call_out, lift, getattr_tavily.
  rewrite Ht. reflexivity.
Qed.

(** C4. Whatever the free-tier adapter yields, unless it is a fault of the
    provider's outage class [DuckDuckGoSearchException], is what the
    composite tool yields, and the keyed back end is not called: only the
    outage class starts the fallback.  In particular every other failure
    reaches the caller unchanged, and the zero-results error is such a
    failure. *)
Theorem web_search_fallback_only_on_outage (self : WebSearchTool)
    (query : pyval) (tr tr' : list event) (r : outcome string) :
  DuckDuckGoSearchTool_call (ddg self) query tr = (r, tr') ->
  (forall e : exn,
     r = Raise e -> isinstance e Cls.DuckDuckGoSearchException = false) ->
  WebSearchTool_call self query tr = (r, tr')
  /\ tavily_calls tr' = tavily_calls tr
  /\ isinstance no_results Cls.DuckDuckGoSearchException = false.
Proof.
  intros H Hcls. split; [|split].
  - unfold WebSearchTool_call, try_except. rewrite H.
    destruct r as [out|e]; [reflexivity|].
    rewrite (Hcls e eq_refl). reflexivity.
  - eapply ddg_call_no_tavily, H.
  - reflexivity.
Qed.

Lemma web_search_fallback_only_on_outage_witness :
  let self := {| ddg := Doubles.ddg_tool [];
                 tavily := Some (Doubles.tavily_tool [Doubles.paris]) |} in
  WebSearchTool_call self Doubles.a_query []
  = (Raise no_results, [EvDDGText Doubles.a_query 10])
  /\ tavily_calls [EvDDGText Doubles.a_query 10] = tavily_calls []
  /\ isinstance no_results Cls.DuckDuckGoSearchException = false.
Proof.
  intros self.
  apply (web_search_fallback_only_on_outage self Doubles.a_query []).
  - vm_compute. reflexivity.
  - intros e [= <-]. vm_compute. reflexivity.
Defined.

(** Built without a credential, the composite tool has no keyed adapter. *)
Lemma init_without_key_no_tavily (pk : packages) (max_results : Z)
    (self : WebSearchTool) :
  WebSearchTool_init pk max_results None = Ret self -> tavily self = None.
Proof.
  unfold WebSearchTool_init.
  destruct (DuckDuckGoSearchTool_init pk max_results) as [d|e]; simpl.
  - intros [= <-]. reflexivity.
  - discriminate.
Qed.

(** C5. When the composite tool was built without a credential and the
    free-tier adapter raises a fault of its outage class, the call fails:
    it raises [AttributeError] (the attribute [tavily] was never set),
    returns no string, and calls no keyed back end. *)
Theorem web_search_outage_without_keyed_fails (pk : packages)
    (max_results : Z) (self : WebSearchTool) (query : pyval)
    (tr tr' : list event) (e : exn) :
  WebSearchTool_init pk max_results None = Ret self ->
  DuckDuckGoSearchTool_call (ddg self) query tr = (Raise e, tr') ->
  isinstance e Cls.DuckDuckGoSearchException = true ->
  exists (e' : exn) (tr'' : list event),
    WebSearchTool_call self query tr = (Raise e', tr'')
    /\ isinstance e' Cls.AttributeError = true
    /\ tavily_calls tr'' = tavily_calls tr.
Proof.
  intros Hinit H Hcls.
  apply init_without_key_no_tavily in Hinit.
  exists (new_AttributeError
            "'WebSearchTool' object has no attribute 'tavily'").
  eexists. split; [|split].
  - unfold WebSearchTool_call, try_except. rewrite H, Hcls.
    unfold bind, print, call_out, lift, getattr_tavily.
    rewrite Hinit. reflexivity.
  - reflexivity.
  - rewrite tavily_calls_snoc by reflexivity.
    eapply ddg_call_no_tavily, H.
Qed.

Lemma web_search_outage_without_keyed_fails_witness :
  exists (e' : exn) (tr'' : list event),
    WebSearchTool_call
      {| ddg := {| ddg_max_results := 10;
                   ddgs := Doubles.ddgs_raising Doubles.ratelimit |};
         tavily := None |}
      Doubles.a_query [] = (Raise e', tr'')
    /\ isinstance e' Cls.AttributeError = true
    /\ tavily_calls tr'' = tavily_calls [].
Proof.
  apply (web_search_outage_without_keyed_fails
           (Doubles.installed (Doubles.ddgs_raising Doubles.ratelimit)
              (Doubles.tavily_returning []) (Doubles.web_returning ""))
           10 _ Doubles.a_query [] [EvDDGText Doubles.a_query 10]
           Doubles.ratelimit).
  - vm_compute. reflexivity.
  - vm_compute. reflexivity.
  - vm_compute. reflexivity.
Defined.

(** ** The webpage tool *)

Section Visit.

Variable pk : packages.
Variable m : web_modules.
Hypothesis imported : import_web pk = Ret m.

(** Once the imports succeed, the call is the guarded body. *)
Lemma visit_call_imported (self : VisitWebpageTool) (url : pyval)
    (tr : list event) :
  VisitWebpageTool_call pk self url tr
  = try_except (visit_body m self url) visit_handler tr.
Proof.
  unfold VisitWebpageTool_call, bind, lift, import_or.
  rewrite imported. reflexivity.
Qed.

(** Every fault of class [Exception] is answered with a text. *)
Lemma visit_handler_returns (e : exn) (tr : list event) :
  isinstance e Cls.Exception = true ->
  exists out,
    visit_handler e tr = (Ret out, tr)
    /\ (out = "The request timed out. Please try again later or check the URL."
        \/ out = "Error fetching the webpage: " +:+ exn_str e
        \/ out = "An unexpected error occurred: " +:+ exn_str e).
Proof.
  intros He. unfold visit_handler.
  destruct (isinstance e Cls.Timeout);
    [|destruct (isinstance e Cls.RequestException)];
    [| |rewrite He]; eexists; (split; [reflexivity|]); auto.
Qed.

End Visit.

(** C8. When the HTTP GET raises a fault of the class
    [requests.exceptions.Timeout], the call returns exactly the fixed
    time-out message. *)
Theorem visit_timeout_message (pk : packages) (m : web_modules)
    (self : VisitWebpageTool) (url : pyval) (e : exn) (tr : list event) :
  import_web pk = Ret m ->
  requests_get m url 20 = Raise e ->
  isinstance e Cls.Timeout = true ->
  VisitWebpageTool_call pk self url tr
  = (Ret "The request timed out. Please try again later or check the URL.",
     (tr ++ [EvHttpGet url 20])%list).
Proof.
  intros Himp Hget Hcls.
  rewrite (visit_call_imported pk m Himp).
  unfold try_except, visit_body, bind, call_out.
  rewrite Hget. unfold visit_handler. rewrite Hcls. reflexivity.
Qed.

Lemma visit_timeout_message_witness :
  VisitWebpageTool_call
    (Doubles.installed (Doubles.ddgs_returning []) (Doubles.tavily_returning [])
       (Doubles.web_raising Doubles.read_timeout))
    (VisitWebpageTool_init (Some 1000)) Doubles.a_url []
  = (Ret "The request timed out. Please try again later or check the URL.",
     [EvHttpGet Doubles.a_url 20]).
Proof.
  apply (visit_timeout_message _ (Doubles.web_raising Doubles.read_timeout)
           _ Doubles.a_url Doubles.read_timeout []).
  - reflexivity.
  - reflexivity.
  - vm_compute. reflexivity.
Defined.

(** ** Line breaks and truncation *)

Section LineBreaks.

Lemma flush_run_no_run3 (run : nat) : has_run3 (flush_run run) = false.
Proof. destruct run as [|[|[|run]]]; reflexivity. Qed.

(** A character that is no line break ends the run before it. *)
Lemma flush_run_then (run : nat) (c : ascii) (rest : string) :
  is_nl c = false ->
  has_run3 (flush_run run +:+ String c rest) = has_run3 rest.
Proof.
  intros Hc.
  destruct run as [|[|[|run]]], rest as [|b rest]; unfold flush_run; simpl;
    rewrite ?Hc; simpl; rewrite ?andb_false_r; reflexivity.
Qed.

Lemma collapse_from_no_run3 (s : string) :
  forall run, has_run3 (collapse_from run s) = false.
Proof.
  induction s as [|c s IH]; intros run; simpl.
  - apply flush_run_no_run3.
  - destruct (is_nl c) eqn:Hc.
    + apply IH.
    + rewrite flush_run_then by exact Hc. apply IH.
Qed.

Lemma collapse_line_breaks_no_run3 (s : string) :
  has_run3 (collapse_line_breaks s) = false.
Proof. apply collapse_from_no_run3. Qed.

(** A run of three or more line breaks between two other characters
    becomes exactly two. *)
Lemma collapse_from_run (k run : nat) (c : ascii) (rest : string) :
  is_nl c = false ->
  collapse_from run (nls k +:+ String c rest)
  = flush_run (run + k) +:+ String c (collapse_from 0 rest).
Proof.
  intros Hc. revert run.
  induction k as [|k IH]; intros run; simpl.
  - rewrite Hc, Nat.add_0_r. reflexivity.
  - change (is_nl nl_char) with true. cbv iota.
    rewrite IH. f_equal. f_equal. lia.
Qed.






End LineBreaks.



(** C6, as amended.  Once the imports of the call succeed, every fault of
    class [Exception] raised by the GET, by the status check or by the
    conversion is answered with one of three texts: the fixed time-out
    message, or the description of the fault after "Error fetching the
    webpage: " or after "An unexpected error occurred: ". *)
Theorem visit_faults_become_text (pk : packages) (m : web_modules)
    (self : VisitWebpageTool) (url : pyval) (e : exn)
    (tr tr' : list event) :
  import_web pk = Ret m ->
  visit_body m self url tr = (Raise e, tr') ->
  isinstance e Cls.Exception = true ->
  exists out : string,
    VisitWebpageTool_call pk self url tr = (Ret out, tr')
    /\ (out = "The request timed out. Please try again later or check the URL."
        \/ out = "Error fetching the webpage: " +:+ exn_str e
        \/ out = "An unexpected error occurred: " +:+ exn_str e).
Proof.
  intros Himp Hbody He.
  rewrite (visit_call_imported pk m Himp).
  unfold try_except. rewrite Hbody.
  now apply visit_handler_returns.
Qed.

Lemma visit_faults_become_text_witness :
  exists out : string,
    VisitWebpageTool_call
      (Doubles.installed (Doubles.ddgs_returning [])
         (Doubles.tavily_returning []) (Doubles.web_raising Doubles.dns_failure))
      (VisitWebpageTool_init None) Doubles.a_url []
    = (Ret out, [EvHttpGet Doubles.a_url 20])
    /\ (out = "The request timed out. Please try again later or check the URL."
        \/ out = "Error fetching the webpage: " +:+ exn_str Doubles.dns_failure
        \/ out = "An unexpected error occurred: "
                 +:+ exn_str Doubles.dns_failure).
Proof.
  apply (visit_faults_become_text _ (Doubles.web_raising Doubles.dns_failure)
           (VisitWebpageTool_init None) Doubles.a_url Doubles.dns_failure []).
  - reflexivity.
  - reflexivity.
  - vm_compute. reflexivity.
Defined.

(** C6, as stated, fails: when [markdownify] is not installed the call
    raises [ImportError] (lines 39-42) and returns no string. *)
Lemma visit_import_error_escapes :
  let pk := Doubles.no_markdownify (Doubles.ddgs_returning [])
              (Doubles.tavily_returning []) in
  VisitWebpageTool_call pk (VisitWebpageTool_init None) Doubles.a_url []
  = (Raise (new_ImportError
      "You must install packages `markdownify` and `requests` to run this tool: for instance run `pip install markdownify requests`."),
     [])
  /\ ~ (exists (out : string) (tr' : list event),
          VisitWebpageTool_call pk (VisitWebpageTool_init None)
            Doubles.a_url [] = (Ret out, tr')).
Proof.
  intros pk. split.
  - reflexivity.
  - intros (out & tr' & H). vm_compute in H. discriminate H.
Qed.

(** ** The keyed adapter *)

(** The keyed adapter raises the zero-results error only when the response
    dict itself has no key. *)
Lemma tavily_format_no_results (max_results : Z)
    (results : gmap string field) :
  tavily_format max_results results = Raise no_results -> results = ∅.
Proof.
  unfold tavily_format.
  destruct (Nat.eqb_spec (size results) 0) as [Hsize|Hsize].
  - intros _. now apply map_size_empty_inv.
  - unfold getitem. destruct (results !! "results") as [[s|l|ty]|]; simpl.
    + destruct (str_slice_to max_results s); discriminate.
    + destruct (comprehension _ _) as [ys|e] eqn:Hc; simpl; [discriminate|].
      intros [= ->]. exfalso. clear Hsize.
      induction (slice_to max_results l) as [|h hs IH]; simpl in Hc;
        [discriminate|].
      unfold tavily_postprocess, getitem in Hc.
      destruct (h !! "title"); simpl in Hc; [|discriminate].
      destruct (h !! "content"); simpl in Hc; [|discriminate].
      destruct (comprehension _ hs); [discriminate|].
      apply IH. exact Hc.
    + discriminate.
    + discriminate.
Qed.

(** A response with an empty list of hits is rendered as the bare
    heading. *)
Lemma tavily_zero_hits_render (self : TavilySearchTool) (query : pyval)
    (results : gmap string field) (tr : list event) :
  tavily_search (client self) query "text" = Ret results ->
  results !! "results" = Some (FHits []) ->
  TavilySearchTool_call self query tr
  = (Ret heading, (tr ++ [EvTavilySearch query "text"])%list).
Proof.
  intros Hsearch Hhits.
  unfold TavilySearchTool_call, bind, call_out, lift. rewrite Hsearch.
  unfold tavily_format, getitem.
  destruct (Nat.eqb_spec (size results) 0) as [Hsize|Hsize].
  - apply map_size_empty_inv in Hsize. subst results.
    rewrite lookup_empty in Hhits. discriminate.
  - rewrite Hhits. simpl.
    unfold slice_to. destruct (0 <=? _); rewrite take_nil; reflexivity.
Qed.

(** C3, at the failing input: the keyed back end answers with zero hits
    and the keyed adapter returns the bare heading as a success. *)
Theorem tavily_zero_results_returned_as_success :
  TavilySearchTool_call (Doubles.tavily_tool []) Doubles.a_query []
  = (Ret ("## Search Results" +:+ nl +:+ nl),
     [EvTavilySearch Doubles.a_query "text"])
  /\ DuckDuckGoSearchTool_call (Doubles.ddg_tool []) Doubles.a_query []
     = (Raise no_results, [EvDDGText Doubles.a_query 10]).
Proof. split; vm_compute; reflexivity. Qed.

(** C2, at the failing input: on the same one hit the free-tier adapter
    writes the link and the snippet, the keyed adapter writes the title
    and an unclosed parenthesis with the content. *)
Theorem adapters_format_differently :
  DuckDuckGoSearchTool_call (Doubles.ddg_tool [Doubles.paris])
    Doubles.a_query []
  = (Ret ("## Search Results" +:+ nl +:+ nl +:+ "[Paris](https://x)" +:+ nl
          +:+ "Paris is the capital"),
     [EvDDGText Doubles.a_query 10])
  /\ TavilySearchTool_call (Doubles.tavily_tool [Doubles.paris])
       Doubles.a_query []
     = (Ret ("## Search Results" +:+ nl +:+ nl
             +:+ "[Paris](Paris is the capital"),
        [EvTavilySearch Doubles.a_query "text"]).
Proof. split; vm_compute; reflexivity. Qed.

(** ** Invocation by keyword *)

(** A dict with one key, which is [k], is the singleton on [k]. *)
Lemma map_one_key {V : Type} (args : gmap string V) (k : string) (v : V) :
  args !! k = Some v -> size args = 1%nat -> args = {[ k := v ]}.
Proof.
  intros Hk Hsize.
  rewrite <- (insert_delete_id args k v Hk).
  assert (delete k args = ∅) as ->.
  { apply map_size_empty_inv.
    rewrite map_size_delete_Some by (rewrite Hk; eauto). lia. }
  apply insert_empty.
Qed.

(** X26. For every tool, the declared schema [inputs] names exactly the
    one parameter of its [__call__]. *)
Lemma tool_inputs_param (t : tool) : dom (tool_inputs t) = {[ tool_param t ]}.
Proof. destruct t; simpl; apply dom_singleton_L. Qed.

(** C9, as amended.  The call checks the names only, as Python's keyword
    binding does, and no type: either the argument set is exactly one value
    under the name of the tool's parameter, and that value, of whatever
    type, is passed as it is to the body of [__call__]; or it is not, and
    the call raises [TypeError] before anything else happens. *)
Theorem invoke_binds_by_name_only (pk : packages) (t : tool)
    (args : gmap string pyval) (tr : list event) :
  (exists v : pyval,
     args = {[ tool_param t := v ]}
     /\ invoke pk t args tr = tool_call pk t v tr)
  \/ ((forall v : pyval, args <> {[ tool_param t := v ]})
      /\ exists e : exn,
           invoke pk t args tr = (Raise e, tr)
           /\ isinstance e Cls.TypeError = true).
Proof.
  unfold invoke.
  destruct (args !! tool_param t) as [v|] eqn:Hk.
  - destruct (Nat.eqb_spec (size args) 1) as [Hsize|Hsize].
    + left. exists v. split; [|reflexivity]. now apply map_one_key.
    + right. split.
      * intros v' ->. now rewrite map_size_singleton in Hsize.
      * eexists. split; reflexivity.
  - right. split.
    + intros v' ->. rewrite lookup_singleton_eq in Hk. discriminate.
    + destruct (size args =? 0)%nat; eexists; split; reflexivity.
Qed.

(** C9, as stated, fails: an integer under the name of a parameter
    declared as a string does not match the schema, and the call succeeds
    with it. *)
Lemma invoke_accepts_mismatched_type :
  let pk := Doubles.installed (Doubles.ddgs_returning [Doubles.paris])
              (Doubles.tavily_returning []) (Doubles.web_returning "") in
  let t := DuckDuckGoSearch (Doubles.ddg_tool [Doubles.paris]) in
  let args : gmap string pyval := {[ "query" := PInt 5 ]} in
  args_match (tool_inputs t) args = false
  /\ invoke pk t args []
     = (Ret (PStr ("## Search Results" +:+ nl +:+ nl +:+ "[Paris](https://x)"
                   +:+ nl +:+ "Paris is the capital")),
        [EvDDGText (PInt 5) 10])
  /\ ~ (exists (e : exn) (tr' : list event),
          invoke pk t args [] = (Raise e, tr')).
Proof.
  intros pk t args. split; [|split].
  - vm_compute. reflexivity.
  - vm_compute. reflexivity.
  - intros (e & tr' & H). vm_compute in H. discriminate H.
Qed.

(** ** The final answer *)

(** Through the keyword call too, the answer comes back as it is. *)
Lemma invoke_final_answer (pk : packages) (answer : pyval)
    (tr : list event) :
  invoke pk FinalAnswer {[ "answer" := answer ]} tr = (Ret answer, tr).
Proof.
  unfold invoke. simpl.
  rewrite lookup_singleton_eq, map_size_singleton. reflexivity.
Qed.

(** C10. [FinalAnswerTool.__call__] returns its argument, of whatever type,
    unchanged, and makes no outward call; so does the tool when it is
    called by keyword with any value as its answer. *)
Theorem final_answer_identity (A : Type) (answer : A) (tr : list event) :
  FinalAnswerTool_call answer tr = (Ret answer, tr)
  /\ forall (pk : packages) (v : pyval),
       tool_call pk FinalAnswer v tr = (Ret v, tr)
       /\ invoke pk FinalAnswer {[ "answer" := v ]} tr = (Ret v, tr).
Proof.
  split; [reflexivity|].
  intros pk v. split; [reflexivity|apply invoke_final_answer].
Qed.

(** * Further properties of the code *)

(** ** List comprehensions that may raise *)

Section Comprehension.

Context {A B : Type} (f : A -> outcome B).

(** A comprehension succeeds exactly when every element does, and then
    yields the results in order. *)
Lemma comprehension_Ret (l : list A) (ys : list B) :
  comprehension f l = Ret ys <-> Forall2 (fun x y => f x = Ret y) l ys.
Proof.
  revert ys. induction l as [|x l IH]; intros ys; simpl.
  - split.
    + intros [= <-]. constructor.
    + intros H. inversion H. reflexivity.
  - destruct (f x) as [y|e] eqn:Hx.
    + destruct (comprehension f l) as [ys'|e] eqn:Hl.
      * split.
        -- intros [= <-]. constructor; [exact Hx|]. now apply IH.
        -- intros H. inversion H as [|? y' ? ys'' Hy Hrest]; subst.
           rewrite Hx in Hy. injection Hy as <-.
           apply IH in Hrest. now injection Hrest as <-.
      * split; [discriminate|].
        intros H. inversion H as [|? y' ? ys'' Hy Hrest]; subst.
        apply IH in Hrest. discriminate.
    + split; [discriminate|].
      intros H. inversion H as [|? y' ? ys'' Hy Hrest]; subst.
      rewrite Hx in Hy. discriminate.
Qed.

(** A failing comprehension fails with the fault of its first failing
    element. *)
Lemma comprehension_Raise (l : list A) (e : exn) :
  comprehension f l = Raise e <->
  exists good x rest,
    l = (good ++ x :: rest)%list
    /\ Forall (fun a => exists b, f a = Ret b) good
    /\ f x = Raise e.
Proof.
  induction l as [|x l IH]; simpl.
  - split; [discriminate|].
    intros (good & y & rest & Hl & _). destruct good; discriminate.
  - destruct (f x) as [y|e'] eqn:Hx.
    + destruct (comprehension f l) as [ys|e'] eqn:Hl.
      * split; [discriminate|].
        intros (good & z & rest & Heq & Hgood & Hz).
        destruct good as [|g good]; simpl in Heq; injection Heq as -> ->.
        -- rewrite Hx in Hz. discriminate.
        -- apply Forall_cons in Hgood as [_ Hgood].
           assert (Ret ys = Raise e) by (apply IH; eauto 6).
           discriminate.
      * split.
        -- intros [= ->]. destruct (proj1 IH eq_refl)
             as (good & z & rest & -> & Hgood & Hz).
           exists (x :: good), z, rest. split; [reflexivity|].
           split; [|exact Hz]. constructor; eauto.
        -- intros (good & z & rest & Heq & Hgood & Hz).
           destruct good as [|g good]; simpl in Heq; injection Heq as -> ->.
           ++ rewrite Hx in Hz. discriminate.
           ++ apply Forall_cons in Hgood as [_ Hgood].
              apply IH. eauto 6.
    + split.
      * intros [= ->]. exists [], x, l. split; [reflexivity|].
        split; [constructor|exact Hx].
      * intros (good & z & rest & Heq & Hgood & Hz).
        destruct good as [|g good]; simpl in Heq; injection Heq as -> ->.
        -- rewrite Hx in Hz. now injection Hz as ->.
        -- apply Forall_cons in Hgood as [[b Hb] _].
           rewrite Hx in Hb. discriminate.
Qed.

End Comprehension.

(** ** The free-tier adapter: what its formatting yields *)

(** A hit is rendered unless one of its three fields is missing; the fault
    then names the first missing one. *)
Lemma ddg_postprocess_Raise (h : hit) (e : exn) :
  ddg_postprocess h = Raise e ->
  exists k : string,
    k ∈ ["title"; "href"; "body"] /\ h !! k = None /\ e = new_KeyError k.
Proof.
  unfold ddg_postprocess, getitem.
  destruct (h !! "title") eqn:Ht; simpl.
  - destruct (h !! "href") eqn:Hh; simpl.
    + destruct (h !! "body") eqn:Hb; simpl; [discriminate|].
      intros [= <-]. exists "body". split; [set_solver|]. now split.
    + intros [= <-]. exists "href". split; [set_solver|]. now split.
  - intros [= <-]. exists "title". split; [set_solver|]. now split.
Qed.

(** X1. The formatting of lines 85-91 succeeds exactly when the back end
    returned at least one hit and every hit is rendered; the output is then
    the heading followed by the rendered hits, one per hit, in the order of
    the back end, separated by blank lines. *)
Theorem ddg_format_success_shape (results : list hit) (out : string) :
  ddg_format results = Ret out <->
  results <> []
  /\ exists blocks : list string,
       Forall2 (fun h b => ddg_postprocess h = Ret b) results blocks
       /\ out = heading +:+ py_join (nl +:+ nl) blocks.
Proof.
  unfold ddg_format. destruct results as [|h results].
  - simpl. split; [discriminate|]. intros [H _]. now destruct H.
  - change (length (h :: results) =? 0)%nat with false. cbv iota.
    destruct (comprehension ddg_postprocess (h :: results)) as [blocks|e]
      eqn:Hc; simpl.
    + split.
      * intros [= <-]. split; [discriminate|].
        exists blocks. split; [|reflexivity]. now apply comprehension_Ret.
      * intros (_ & blocks' & Hall & ->).
        apply comprehension_Ret in Hall. rewrite Hc in Hall.
        now injection Hall as ->.
    + split; [discriminate|].
      intros (_ & blocks' & Hall & _).
      apply comprehension_Ret in Hall. rewrite Hc in Hall. discriminate.
Qed.

(** X2. The formatting of lines 85-91 fails in two ways only: with the
    zero-results error on an empty list, or with a [KeyError] naming a field
    among title, href and body that some returned hit lacks. *)
Theorem ddg_format_failure (results : list hit) (e : exn) :
  ddg_format results = Raise e ->
  (results = [] /\ e = no_results)
  \/ exists (h : hit) (k : string),
       h ∈ results /\ k ∈ ["title"; "href"; "body"]
       /\ h !! k = None /\ e = new_KeyError k.
Proof.
  unfold ddg_format. destruct results as [|h results].
  - simpl. intros [= <-]. now left.
  - change (length (h :: results) =? 0)%nat with false. cbv iota.
    destruct (comprehension ddg_postprocess (h :: results)) as [blocks|e']
      eqn:Hc; simpl; [discriminate|].
    intros [= ->]. right.
    apply comprehension_Raise in Hc as (good & bad & rest & Heq & _ & Hbad).
    apply ddg_postprocess_Raise in Hbad as (k & Hk & Hnone & ->).
    exists bad, k. split; [|auto].
    rewrite Heq. apply elem_of_app. right. apply list_elem_of_here.
Qed.

Lemma ddg_format_failure_witness :
  (([Doubles.paris; Cases.no_href] : list hit) = []
   /\ new_KeyError "href" = no_results)
  \/ exists (h : hit) (k : string),
       h ∈ [Doubles.paris; Cases.no_href] /\ k ∈ ["title"; "href"; "body"]
       /\ h !! k = None /\ new_KeyError "href" = new_KeyError k.
Proof.
  apply (ddg_format_failure [Doubles.paris; Cases.no_href]
           (new_KeyError "href")).
  vm_compute. reflexivity.
Defined.

(** X3. The first hit that cannot be rendered decides the fault of the
    whole formatting: the hits after it are not looked at, and nothing of
    the hits before it is returned. *)
Theorem ddg_format_first_fault (good : list hit) (bad : hit)
    (rest : list hit) (e : exn) :
  Forall (fun h => exists b, ddg_postprocess h = Ret b) good ->
  ddg_postprocess bad = Raise e ->
  ddg_format (good ++ bad :: rest) = Raise e.
Proof.
  intros Hgood Hbad. unfold ddg_format.
  assert ((length (good ++ bad :: rest) =? 0)%nat = false) as ->.
  { apply Nat.eqb_neq. rewrite length_app. simpl. lia. }
  assert (comprehension ddg_postprocess (good ++ bad :: rest) = Raise e)
    as ->; [|reflexivity].
  apply comprehension_Raise. eauto 6.
Qed.

Lemma ddg_format_first_fault_witness :
  ddg_format ([Doubles.paris] ++ Cases.no_href :: [Doubles.paris])
  = Raise (new_KeyError "href").
Proof.
  apply ddg_format_first_fault.
  - repeat constructor. eexists. vm_compute. reflexivity.
  - vm_compute. reflexivity.
Defined.

(** ** The composite tool: its outward calls *)

Lemma tavily_call_trace (self : TavilySearchTool) (query : pyval)
    (tr tr' : list event) (r : outcome string) :
  TavilySearchTool_call self query tr = (r, tr') ->
  tr' = (tr ++ [EvTavilySearch query "text"])%list.
Proof.
  unfold TavilySearchTool_call, bind, call_out, lift.
  destruct (tavily_search _ _ _); intros [= _ <-]; reflexivity.
Qed.

(** The three traces a call of the composite tool can leave. *)
Lemma web_search_trace_cases (self : WebSearchTool) (query : pyval)
    (tr tr' : list event) (r : outcome string) :
  WebSearchTool_call self query tr = (r, tr') ->
  let first := EvDDGText query (ddg_max_results (ddg self)) in
  tr' = (tr ++ [first])%list
  \/ (exists line, tavily self = None
                   /\ tr' = (tr ++ [first; EvPrint line])%list)
  \/ (exists line, is_Some (tavily self)
                   /\ tr' = (tr ++ [first; EvPrint line;
                                    EvTavilySearch query "text"])%list).
Proof.
  intros H first. unfold WebSearchTool_call, try_except in H.
  destruct (DuckDuckGoSearchTool_call (ddg self) query tr)
    as [[out|e] tr1] eqn:Hddg;
    apply ddg_call_trace in Hddg; subst tr1.
  - injection H as _ <-. now left.
  - destruct (isinstance e Cls.DuckDuckGoSearchException).
    + unfold bind, print, call_out, lift, getattr_tavily in H.
      destruct (tavily self) as [t|] eqn:Ht.
      * apply tavily_call_trace in H. subst tr'.
        right. right. eexists. split; [eauto|].
        rewrite <- !app_assoc. reflexivity.
      * injection H as _ <-.
        right. left. eexists. split; [reflexivity|].
        rewrite <- !app_assoc. reflexivity.
    + injection H as _ <-. now left.
Qed.

Lemma ddg_calls_app (tr l : list event) :
  ddg_calls (tr ++ l) = (ddg_calls tr + ddg_calls l)%nat.
Proof. unfold ddg_calls. now rewrite filter_app, length_app. Qed.

Lemma tavily_calls_app (tr l : list event) :
  tavily_calls (tr ++ l) = (tavily_calls tr + tavily_calls l)%nat.
Proof. unfold tavily_calls. now rewrite filter_app, length_app. Qed.

(** X4. Whatever its outcome, one call of the composite tool sends exactly
    one request to the free back end and at most one to the keyed back end,
    and none to the keyed back end when no keyed adapter is attached. *)
Theorem web_search_call_budget (self : WebSearchTool) (query : pyval)
    (tr tr' : list event) (r : outcome string) :
  WebSearchTool_call self query tr = (r, tr') ->
  ddg_calls tr' = S (ddg_calls tr)
  /\ (tavily_calls tr' <= S (tavily_calls tr))%nat
  /\ (tavily self = None -> tavily_calls tr' = tavily_calls tr).
Proof.
  intros H. apply web_search_trace_cases in H.
  destruct H as [->|[(line & Hnone & ->)|(line & Hsome & ->)]];
    rewrite ddg_calls_app, tavily_calls_app.
  - change (ddg_calls [_]) with 1%nat. change (tavily_calls [_]) with 0%nat.
    lia.
  - change (ddg_calls [_; _]) with 1%nat.
    change (tavily_calls [_; _]) with 0%nat. lia.
  - change (ddg_calls [_; _; _]) with 1%nat.
    change (tavily_calls [_; _; _]) with 1%nat.
    split; [lia|split; [lia|]].
    intros Hnone. rewrite Hnone in Hsome. now destruct Hsome.
Qed.

Lemma web_search_call_budget_witness :
  let self := {| ddg := {| ddg_max_results := 10;
                           ddgs := Doubles.ddgs_raising Doubles.ratelimit |};
                 tavily := Some (Doubles.tavily_tool [Doubles.paris]) |} in
  let tr' := [EvDDGText Doubles.a_query 10;
              EvPrint "Error using DuckDuckGo search: 202 Ratelimit. Trying Tavily search...";
              EvTavilySearch Doubles.a_query "text"] in
  ddg_calls tr' = S (ddg_calls [])
  /\ (tavily_calls tr' <= S (tavily_calls []))%nat
  /\ (tavily self = None -> tavily_calls tr' = tavily_calls []).
Proof.
  intros self tr'.
  apply (web_search_call_budget self Doubles.a_query [] tr'
           (Ret ("## Search Results" +:+ nl +:+ nl
                 +:+ "[Paris](Paris is the capital"))).
  vm_compute. reflexivity.
Defined.

Lemma web_search_fallback_uses_keyed_witness :
  let keyed := Doubles.tavily_tool [Doubles.paris] in
  let self := {| ddg := {| ddg_max_results := 10;
                           ddgs := Doubles.ddgs_raising Doubles.ratelimit |};
                 tavily := Some keyed |} in
  WebSearchTool_call self Doubles.a_query []
  = TavilySearchTool_call keyed Doubles.a_query
      ([EvDDGText Doubles.a_query 10]
       ++ [EvPrint ("Error using DuckDuckGo search: "
                    +:+ exn_str Doubles.ratelimit
                    +:+ ". Trying Tavily search...")])%list.
Proof.
  intros keyed self.
  apply (web_search_fallback_uses_keyed self keyed Doubles.a_query []
           [EvDDGText Doubles.a_query 10] Doubles.ratelimit).
  - reflexivity.
  - vm_compute. reflexivity.
  - vm_compute. reflexivity.
Defined.

(** ** The keyed adapter: what its formatting yields *)

(** A slice with a non-negative bound keeps a prefix. *)
Lemma slice_to_nonneg {A : Type} (n : Z) (l : list A) :
  0 <= n -> slice_to n l = take (Z.to_nat n) l.
Proof.
  intros Hn. unfold slice_to.
  destruct (Z.leb_spec 0 n); [reflexivity|lia].
Qed.

(** A response dict with some key passes the guard of line 118. *)
Lemma tavily_format_nonempty (max_results : Z)
    (results : gmap string field) :
  results <> ∅ ->
  tavily_format max_results results
  = (hits ← getitem results "results"; tavily_render max_results hits).
Proof.
  intros Hne. unfold tavily_format.
  destruct (Nat.eqb_spec (size results) 0) as [Hsize|Hsize]; [|reflexivity].
  now apply map_size_empty_inv in Hsize.
Qed.

(** X6. The keyed adapter raises the zero-results error exactly when the
    response dict has no key at all; the number of hits under ["results"]
    plays no part in it. *)
Theorem tavily_no_results_iff_empty_dict (max_results : Z)
    (results : gmap string field) :
  tavily_format max_results results = Raise no_results <-> results = ∅.
Proof.
  split.
  - apply tavily_format_no_results.
  - intros ->. reflexivity.
Qed.

(** X7. A response dict that has keys but none named ["results"] makes the
    keyed adapter raise [KeyError] for that name, after its one request. *)
Theorem tavily_missing_results_key (self : TavilySearchTool) (query : pyval)
    (results : gmap string field) (tr : list event) :
  tavily_search (client self) query "text" = Ret results ->
  results <> ∅ ->
  results !! "results" = None ->
  TavilySearchTool_call self query tr
  = (Raise (new_KeyError "results"),
     (tr ++ [EvTavilySearch query "text"])%list).
Proof.
  intros Hsearch Hne Hnone.
  unfold TavilySearchTool_call, bind, call_out, lift. rewrite Hsearch.
  rewrite tavily_format_nonempty by exact Hne.
  unfold getitem. rewrite Hnone. reflexivity.
Qed.

Lemma tavily_missing_results_key_witness :
  TavilySearchTool_call
    (Cases.tavily_answering {[ "detail" := FStr "Unauthorized" ]})
    Doubles.a_query []
  = (Raise (new_KeyError "results"), [EvTavilySearch Doubles.a_query "text"]).
Proof.
  apply (tavily_missing_results_key
           (Cases.tavily_answering {[ "detail" := FStr "Unauthorized" ]})
           Doubles.a_query {[ "detail" := FStr "Unauthorized" ]} []).
  - reflexivity.
  - intros H. apply (f_equal size) in H. vm_compute in H. discriminate H.
  - vm_compute. reflexivity.
Defined.

(** X8. With a non-negative cap, the keyed adapter renders the first
    [max_results] hits of the response and no others: on success the output
    is the heading followed by one block per kept hit, in order, so it has
    at most [max_results] blocks, however many hits the back end returned. *)
Theorem tavily_caps_results (max_results : Z) (results : gmap string field)
    (l : list hit) (out : string) :
  0 <= max_results ->
  results !! "results" = Some (FHits l) ->
  tavily_format max_results results = Ret out ->
  exists blocks : list string,
    Forall2 (fun h b => tavily_postprocess h = Ret b)
            (take (Z.to_nat max_results) l) blocks
    /\ out = heading +:+ py_join (nl +:+ nl) blocks
    /\ length blocks = Nat.min (Z.to_nat max_results) (length l).
Proof.
  intros Hcap Hhits.
  rewrite tavily_format_nonempty
    by (intros ->; rewrite lookup_empty in Hhits; discriminate).
  unfold getitem. rewrite Hhits. simpl.
  rewrite slice_to_nonneg by exact Hcap.
  destruct (comprehension tavily_postprocess (take (Z.to_nat max_results) l))
    as [blocks|e] eqn:Hc; simpl; [|discriminate].
  intros [= <-]. apply comprehension_Ret in Hc.
  exists blocks. split; [exact Hc|split; [reflexivity|]].
  apply Forall2_length in Hc. rewrite <- Hc. apply length_take.
Qed.

Lemma tavily_caps_results_witness :
  exists blocks : list string,
    Forall2 (fun h b => tavily_postprocess h = Ret b)
            (take (Z.to_nat 1) [Cases.lyon; Cases.no_content]) blocks
    /\ "## Search Results" +:+ nl +:+ nl +:+ "[Lyon](Lyon is a city"
       = heading +:+ py_join (nl +:+ nl) blocks
    /\ length blocks
       = Nat.min (Z.to_nat 1) (length [Cases.lyon; Cases.no_content]).
Proof.
  apply (tavily_caps_results 1
           {[ "results" := FHits [Cases.lyon; Cases.no_content] ]}).
  - lia.
  - vm_compute. reflexivity.
  - vm_compute. reflexivity.
Defined.

(** X9. Hits past the cap are never looked at: with a non-negative cap that
    does not exceed the number of hits, any hits appended after them, well
    formed or not, leave the keyed adapter's rendering as it is. *)
Theorem tavily_ignores_hits_past_cap (max_results : Z)
    (l extra : list hit) :
  0 <= max_results ->
  (Z.to_nat max_results <= length l)%nat ->
  tavily_render max_results (FHits (l ++ extra))
  = tavily_render max_results (FHits l).
Proof.
  intros Hcap Hlen. unfold tavily_render.
  rewrite !slice_to_nonneg by exact Hcap.
  rewrite take_app_le by exact Hlen. reflexivity.
Qed.

Lemma tavily_ignores_hits_past_cap_witness :
  tavily_render 1 (FHits ([Cases.lyon] ++ [Cases.no_content]))
  = tavily_render 1 (FHits [Cases.lyon]).
Proof.
  apply tavily_ignores_hits_past_cap.
  - lia.
  - simpl. lia.
Defined.

(** ** Every search output starts with the heading *)

Lemma ddg_format_heading (results : list hit) (out : string) :
  ddg_format results = Ret out -> exists rest, out = heading +:+ rest.
Proof.
  unfold ddg_format. destruct (length results =? 0)%nat; [discriminate|].
  destruct (comprehension ddg_postprocess results); simpl; [|discriminate].
  intros [= <-]. eauto.
Qed.

Lemma tavily_format_heading (max_results : Z) (results : gmap string field)
    (out : string) :
  tavily_format max_results results = Ret out ->
  exists rest, out = heading +:+ rest.
Proof.
  unfold tavily_format. destruct (size results =? 0)%nat; [discriminate|].
  unfold getitem. destruct (results !! "results") as [[s|l|ty]|]; simpl;
    [| | discriminate | discriminate].
  - destruct (str_slice_to max_results s); [|discriminate].
    intros [= <-]. eauto.
  - destruct (comprehension _ _); simpl; [|discriminate].
    intros [= <-]. eauto.
Qed.

(** X10. Whichever adapter served it, every string the composite tool
    returns starts with the heading ["## Search Results"] and a blank
    line. *)
Theorem web_search_output_has_heading (self : WebSearchTool) (query : pyval)
    (tr tr' : list event) (out : string) :
  WebSearchTool_call self query tr = (Ret out, tr') ->
  exists rest : string,
    out = "## Search Results" +:+ nl +:+ nl +:+ rest.
Proof.
  unfold WebSearchTool_call, try_except.
  destruct (DuckDuckGoSearchTool_call (ddg self) query tr)
    as [[out1|e] tr1] eqn:Hddg.
  - intros [= <- <-].
    apply ddg_success_has_results in Hddg as (results & _ & _ & Hfmt).
    now apply ddg_format_heading in Hfmt.
  - destruct (isinstance e Cls.DuckDuckGoSearchException); [|discriminate].
    unfold bind, print, call_out, lift, getattr_tavily.
    destruct (tavily self) as [t|]; [|discriminate].
    unfold TavilySearchTool_call, bind, call_out, lift.
    destruct (tavily_search _ _ _) as [results|e']; [|discriminate].
    intros [= Hfmt _]. now apply tavily_format_heading in Hfmt.
Qed.

Lemma web_search_output_has_heading_witness :
  exists rest : string,
    "## Search Results" +:+ nl +:+ nl +:+ "[Paris](Paris is the capital"
    = "## Search Results" +:+ nl +:+ nl +:+ rest.
Proof.
  apply (web_search_output_has_heading
           {| ddg := {| ddg_max_results := 10;
                        ddgs := Doubles.ddgs_raising Doubles.ratelimit |};
              tavily := Some (Doubles.tavily_tool [Doubles.paris]) |}
           Doubles.a_query []
           [EvDDGText Doubles.a_query 10;
            EvPrint "Error using DuckDuckGo search: 202 Ratelimit. Trying Tavily search...";
            EvTavilySearch Doubles.a_query "text"]).
  vm_compute. reflexivity.
Defined.

(** ** The webpage tool: which fault gives which answer *)

(** X11. When the status check of the fetched page raises a fault of class
    [RequestException] that is no time-out (a non-2xx status), the call
    returns "Error fetching the webpage: " followed by the description of
    the fault. *)
Theorem visit_status_fault_text (pk : packages) (m : web_modules)
    (self : VisitWebpageTool) (url : pyval) (response : Response) (e : exn)
    (tr : list event) :
  import_web pk = Ret m ->
  requests_get m url 20 = Ret response ->
  raise_for_status response = Raise e ->
  isinstance e Cls.Timeout = false ->
  isinstance e Cls.RequestException = true ->
  VisitWebpageTool_call pk self url tr
  = (Ret ("Error fetching the webpage: " +:+ exn_str e),
     (tr ++ [EvHttpGet url 20])%list).
Proof.
  intros Himp Hget Hstatus Htimeout Hreq.
  rewrite (visit_call_imported pk m Himp).
  unfold try_except, visit_body, bind, call_out, lift.
  rewrite Hget, Hstatus. unfold visit_handler.
  rewrite Htimeout, Hreq. reflexivity.
Qed.

Lemma visit_status_fault_text_witness :
  VisitWebpageTool_call
    (Doubles.installed (Doubles.ddgs_returning [])
       (Doubles.tavily_returning [])
       (Cases.web_with (Ret Cases.missing_page) (Ret "")))
    (VisitWebpageTool_init None) Doubles.a_url []
  = (Ret ("Error fetching the webpage: " +:+ exn_str Cases.http_error),
     [EvHttpGet Doubles.a_url 20]).
Proof.
  apply (visit_status_fault_text _
           (Cases.web_with (Ret Cases.missing_page) (Ret ""))
           _ Doubles.a_url Cases.missing_page Cases.http_error []).
  - reflexivity.
  - reflexivity.
  - reflexivity.
  - vm_compute. reflexivity.
  - vm_compute. reflexivity.
Defined.

(** X12. When the page is fetched and its status check passes but the
    converter raises a fault of class [Exception] that is no
    [RequestException], the call returns "An unexpected error occurred: "
    followed by the description of the fault. *)
Theorem visit_converter_fault_text (pk : packages) (m : web_modules)
    (self : VisitWebpageTool) (url : pyval) (response : Response) (e : exn)
    (tr : list event) :
  import_web pk = Ret m ->
  requests_get m url 20 = Ret response ->
  raise_for_status response = Ret tt ->
  markdownify m (response_text response) = Raise e ->
  isinstance e Cls.Timeout = false ->
  isinstance e Cls.RequestException = false ->
  isinstance e Cls.Exception = true ->
  VisitWebpageTool_call pk self url tr
  = (Ret ("An unexpected error occurred: " +:+ exn_str e),
     (tr ++ [EvHttpGet url 20])%list).
Proof.
  intros Himp Hget Hstatus Hconv Htimeout Hreq Hexc.
  rewrite (visit_call_imported pk m Himp).
  unfold try_except, visit_body, bind, call_out, lift.
  rewrite Hget, Hstatus, Hconv. unfold visit_handler.
  rewrite Htimeout, Hreq, Hexc. reflexivity.
Qed.

Lemma visit_converter_fault_text_witness :
  VisitWebpageTool_call
    (Doubles.installed (Doubles.ddgs_returning [])
       (Doubles.tavily_returning [])
       (Cases.web_with (Ret (Doubles.ok_page "<p>"))
          (Raise Cases.recursion_error)))
    (VisitWebpageTool_init None) Doubles.a_url []
  = (Ret ("An unexpected error occurred: "
          +:+ exn_str Cases.recursion_error),
     [EvHttpGet Doubles.a_url 20]).
Proof.
  apply (visit_converter_fault_text _
           (Cases.web_with (Ret (Doubles.ok_page "<p>"))
              (Raise Cases.recursion_error))
           _ Doubles.a_url (Doubles.ok_page "<p>") Cases.recursion_error []).
  - reflexivity.
  - reflexivity.
  - reflexivity.
  - reflexivity.
  - vm_compute. reflexivity.
  - vm_compute. reflexivity.
  - vm_compute. reflexivity.
Defined.

(** X13. A fault that is not of class [Exception] (an interrupt, say) and
    of none of the two [requests] classes is not caught: raised anywhere in
    the guarded body, it leaves the call unchanged. *)
Theorem visit_non_exception_escapes (pk : packages) (m : web_modules)
    (self : VisitWebpageTool) (url : pyval) (e : exn)
    (tr tr' : list event) :
  import_web pk = Ret m ->
  visit_body m self url tr = (Raise e, tr') ->
  isinstance e Cls.Timeout = false ->
  isinstance e Cls.RequestException = false ->
  isinstance e Cls.Exception = false ->
  VisitWebpageTool_call pk self url tr = (Raise e, tr').
Proof.
  intros Himp Hbody Htimeout Hreq Hexc.
  rewrite (visit_call_imported pk m Himp).
  unfold try_except. rewrite Hbody. unfold visit_handler.
  rewrite Htimeout, Hreq, Hexc. reflexivity.
Qed.

Lemma visit_non_exception_escapes_witness :
  VisitWebpageTool_call
    (Doubles.installed (Doubles.ddgs_returning [])
       (Doubles.tavily_returning [])
       (Doubles.web_raising Cases.keyboard_interrupt))
    (VisitWebpageTool_init None) Doubles.a_url []
  = (Raise Cases.keyboard_interrupt, [EvHttpGet Doubles.a_url 20]).
Proof.
  apply (visit_non_exception_escapes _
           (Doubles.web_raising Cases.keyboard_interrupt)).
  - reflexivity.
  - reflexivity.
  - vm_compute. reflexivity.
  - vm_compute. reflexivity.
  - vm_compute. reflexivity.
Defined.

(** ** The webpage tool: imports and requests *)

(** The handler makes no outward call. *)
Lemma visit_handler_trace (e : exn) (tr : list event) :
  snd (visit_handler e tr) = tr.
Proof.
  unfold visit_handler.
  destruct (isinstance e Cls.Timeout); [reflexivity|].
  destruct (isinstance e Cls.RequestException); [reflexivity|].
  destruct (isinstance e Cls.Exception); reflexivity.
Qed.

Lemma http_gets_app (tr l : list event) :
  http_gets (tr ++ l) = (http_gets tr + http_gets l)%nat.
Proof. unfold http_gets. now rewrite filter_app, length_app. Qed.

(** X14. When an import at the start of the call fails, no page is
    requested: an [ImportError] is replaced by the [ImportError] that asks
    to install the packages, any other fault of the import is raised as it
    is, and the trace is left as it was. *)
Theorem visit_import_failure (pk : packages) (self : VisitWebpageTool)
    (url : pyval) (e : exn) (tr : list event) :
  import_web pk = Raise e ->
  VisitWebpageTool_call pk self url tr
  = (Raise (if isinstance e Cls.ImportError then
              new_ImportError
                "You must install packages `markdownify` and `requests` to run this tool: for instance run `pip install markdownify requests`."
            else e),
     tr).
Proof.
  intros Himp. unfold VisitWebpageTool_call, bind, lift, import_or.
  rewrite Himp. destruct (isinstance e Cls.ImportError); reflexivity.
Qed.

Lemma visit_import_failure_witness :
  VisitWebpageTool_call
    (Doubles.no_markdownify (Doubles.ddgs_returning [])
       (Doubles.tavily_returning []))
    (VisitWebpageTool_init None) Doubles.a_url []
  = (Raise (if isinstance (new_ImportError "No module named 'markdownify'")
                          Cls.ImportError then
              new_ImportError
                "You must install packages `markdownify` and `requests` to run this tool: for instance run `pip install markdownify requests`."
            else new_ImportError "No module named 'markdownify'"),
     []).
Proof.
  apply visit_import_failure. reflexivity.
Defined.

(** X15. Once the imports succeed, the call requests the page exactly once,
    with the URL as it was given and a time-out of 20 seconds, whatever
    happens afterwards and whatever the call yields. *)
Theorem visit_one_get (pk : packages) (m : web_modules)
    (self : VisitWebpageTool) (url : pyval) (tr tr' : list event)
    (r : outcome string) :
  import_web pk = Ret m ->
  VisitWebpageTool_call pk self url tr = (r, tr') ->
  tr' = (tr ++ [EvHttpGet url 20])%list
  /\ http_gets tr' = S (http_gets tr).
Proof.
  intros Himp. rewrite (visit_call_imported pk m Himp).
  intros H.
  assert (tr' = (tr ++ [EvHttpGet url 20])%list) as ->.
  { revert H. unfold try_except, visit_body, bind, call_out, lift.
    destruct (requests_get m url 20) as [response|e].
    - destruct (raise_for_status response) as [u|e].
      + destruct (markdownify m (response_text response)) as [md|e].
        * intros [= _ <-]. reflexivity.
        * intros H. apply (f_equal snd) in H.
          rewrite visit_handler_trace in H. now simpl in H.
      + intros H. apply (f_equal snd) in H.
        rewrite visit_handler_trace in H. now simpl in H.
    - intros H. apply (f_equal snd) in H.
      rewrite visit_handler_trace in H. now simpl in H. }
  split; [reflexivity|].
  rewrite http_gets_app. change (http_gets [_]) with 1%nat. lia.
Qed.

Lemma visit_one_get_witness :
  [EvHttpGet Doubles.a_url 20] = ([] ++ [EvHttpGet Doubles.a_url 20])%list
  /\ http_gets [EvHttpGet Doubles.a_url 20] = S (http_gets []).
Proof.
  apply (visit_one_get
           (Doubles.installed (Doubles.ddgs_returning [])
              (Doubles.tavily_returning [])
              (Doubles.web_raising Doubles.read_timeout))
           (Doubles.web_raising Doubles.read_timeout)
           (VisitWebpageTool_init None) Doubles.a_url []
           [EvHttpGet Doubles.a_url 20]
           (Ret "The request timed out. Please try again later or check the URL.")).
  - reflexivity.
  - vm_compute. reflexivity.
Defined.

(** ** The collapse of line breaks (line 52) *)

Section Collapse.

Lemma str_app_cons (c : ascii) (s t : string) :
  String c s +:+ t = String c (s +:+ t).
Proof. reflexivity. Qed.

Lemma str_app_nil_r (s : string) : s +:+ "" = s.
Proof.
  induction s as [|c s IH]; [reflexivity|].
  rewrite str_app_cons. now f_equal.
Qed.

Lemma str_app_assoc (a b c : string) : (a +:+ b) +:+ c = a +:+ (b +:+ c).
Proof.
  induction a as [|x a IH]; [reflexivity|].
  rewrite !str_app_cons. now f_equal.
Qed.

Lemma str_length_app (a b : string) :
  String.length (a +:+ b) = (String.length a + String.length b)%nat.
Proof.
  induction a as [|x a IH]; [reflexivity|].
  rewrite str_app_cons. simpl. now f_equal.
Qed.

Lemma nls_length (n : nat) : String.length (nls n) = n.
Proof. induction n as [|n IH]; [reflexivity|]. simpl. now f_equal. Qed.

Lemma nls_shift (n : nat) (t : string) :
  nls n +:+ String nl_char t = String nl_char (nls n +:+ t).
Proof.
  induction n as [|n IH]; [reflexivity|].
  simpl nls. rewrite !str_app_cons. now f_equal.
Qed.

Lemma is_nl_eq (c : ascii) : is_nl c = true -> c = nl_char.
Proof. apply Ascii.eqb_eq. Qed.

Lemma flush_run_small (run : nat) : (run <= 2)%nat -> flush_run run = nls run.
Proof.
  intros H. unfold flush_run.
  destruct (Nat.leb_spec 3 run); [lia|reflexivity].
Qed.

Lemma flush_run_length (run : nat) :
  (String.length (flush_run run) <= run)%nat.
Proof.
  unfold flush_run. destruct (Nat.leb_spec 3 run).
  - simpl. lia.
  - rewrite nls_length. lia.
Qed.

Lemma has_run3_tail (c : ascii) (t : string) :
  has_run3 (String c t) = false -> has_run3 t = false.
Proof. simpl. now intros [_ H]%orb_false_elim. Qed.

Lemma has_run3_after_nls (run : nat) (t : string) :
  has_run3 (nls run +:+ t) = false -> has_run3 t = false.
Proof.
  induction run as [|run IH]; [auto|].
  simpl nls. rewrite str_app_cons.
  intros H. apply IH. exact (has_run3_tail _ _ H).
Qed.

Lemma has_run3_nls_bound (run : nat) (t : string) :
  has_run3 (nls run +:+ t) = false -> (run <= 2)%nat.
Proof.
  destruct run as [|[|[|run]]]; try lia.
  simpl nls. rewrite !str_app_cons. simpl. discriminate.
Qed.

(** A string without three line breaks in a row is left as it is. *)
Lemma collapse_from_id (s : string) :
  forall run, has_run3 (nls run +:+ s) = false ->
              collapse_from run s = nls run +:+ s.
Proof.
  induction s as [|c s IH]; intros run H; simpl collapse_from.
  - rewrite (str_app_nil_r (nls run)).
    apply flush_run_small. exact (has_run3_nls_bound _ _ H).
  - destruct (is_nl c) eqn:Hc.
    + apply is_nl_eq in Hc. subst c.
      rewrite nls_shift in *. apply (IH (S run)). exact H.
    + rewrite (flush_run_small run) by exact (has_run3_nls_bound _ _ H).
      f_equal. f_equal. apply (IH 0%nat).
      apply has_run3_after_nls in H. exact (has_run3_tail _ _ H).
Qed.

Lemma collapse_from_length (s : string) :
  forall run,
    (String.length (collapse_from run s) <= run + String.length s)%nat.
Proof.
  induction s as [|c s IH]; intros run; simpl.
  - pose proof (flush_run_length run). lia.
  - destruct (is_nl c).
    + specialize (IH (S run)). lia.
    + rewrite str_length_app. simpl.
      pose proof (flush_run_length run). specialize (IH 0%nat). lia.
Qed.

Lemma text_chars_app (a b : string) :
  text_chars (a +:+ b) = text_chars a +:+ text_chars b.
Proof.
  induction a as [|x a IH]; [reflexivity|].
  rewrite str_app_cons. simpl text_chars.
  destruct (is_nl x); rewrite ?str_app_cons; now f_equal.
Qed.

Lemma text_chars_flush_run (run : nat) : text_chars (flush_run run) = "".
Proof.
  unfold flush_run. destruct (3 <=? run)%nat; [reflexivity|].
  induction run as [|run IH]; [reflexivity|exact IH].
Qed.

Lemma collapse_from_text_chars (s : string) :
  forall run, text_chars (collapse_from run s) = text_chars s.
Proof.
  induction s as [|c s IH]; intros run; simpl collapse_from.
  - apply text_chars_flush_run.
  - simpl text_chars. destruct (is_nl c) eqn:Hc.
    + apply IH.
    + rewrite text_chars_app, text_chars_flush_run. simpl text_chars.
      rewrite Hc, IH. reflexivity.
Qed.

Lemma collapse_from_split (a : string) (c : ascii) (b : string) :
  is_nl c = false ->
  forall run,
    collapse_from run (a +:+ String c b)
    = collapse_from run a +:+ String c (collapse_from 0 b).
Proof.
  intros Hc. induction a as [|x a IH]; intros run.
  - change ("" +:+ String c b) with (String c b).
    simpl collapse_from. now rewrite Hc.
  - rewrite str_app_cons. simpl collapse_from.
    destruct (is_nl x).
    + apply IH.
    + rewrite IH, str_app_assoc, str_app_cons. reflexivity.
Qed.

Lemma collapse_from_nls (k : nat) :
  forall run, collapse_from run (nls k) = flush_run (run + k).
Proof.
  induction k as [|k IH]; intros run; simpl.
  - now rewrite Nat.add_0_r.
  - change (is_nl nl_char) with true. cbv iota.
    rewrite IH. f_equal. lia.
Qed.

End Collapse.

Lemma flush_run_min (k : nat) : flush_run k = nls (Nat.min k 2).
Proof. destruct k as [|[|[|k]]]; reflexivity. Qed.

(** X16. A text without three line breaks in a row passes the collapse of
    line 52 unchanged. *)
Theorem collapse_keeps_clean_text (s : string) :
  has_run3 s = false -> collapse_line_breaks s = s.
Proof. intros H. exact (collapse_from_id s 0%nat H). Qed.

Lemma collapse_keeps_clean_text_witness :
  collapse_line_breaks ("a" +:+ nls 2 +:+ "b" +:+ nls 1 +:+ "c")
  = "a" +:+ nls 2 +:+ "b" +:+ nls 1 +:+ "c".
Proof. apply collapse_keeps_clean_text. vm_compute. reflexivity. Defined.

(** X17. Collapsing twice is collapsing once. *)
Theorem collapse_idempotent (s : string) :
  collapse_line_breaks (collapse_line_breaks s) = collapse_line_breaks s.
Proof.
  apply (collapse_from_id _ 0%nat). apply collapse_line_breaks_no_run3.
Qed.

(** X18. The collapse never makes a text longer. *)
Theorem collapse_never_lengthens (s : string) :
  (String.length (collapse_line_breaks s) <= String.length s)%nat.
Proof. exact (collapse_from_length s 0%nat). Qed.

(** X19. The collapse removes line breaks only: the other characters of the
    text come out all, and in their order. *)
Theorem collapse_keeps_text_chars (s : string) :
  text_chars (collapse_line_breaks s) = text_chars s.
Proof. exact (collapse_from_text_chars s 0%nat). Qed.

(** X20. The collapse works on each side of a character that is no line
    break on its own: what precedes the character and what follows it are
    collapsed separately. *)
Theorem collapse_splits_at_text (a : string) (c : ascii) (b : string) :
  is_nl c = false ->
  collapse_line_breaks (a +:+ String c b)
  = collapse_line_breaks a +:+ String c (collapse_line_breaks b).
Proof. intros Hc. exact (collapse_from_split a c b Hc 0%nat). Qed.

Lemma collapse_splits_at_text_witness :
  collapse_line_breaks (("a" +:+ nls 4) +:+ String "b"%char (nls 3 +:+ "c"))
  = collapse_line_breaks ("a" +:+ nls 4)
    +:+ String "b"%char (collapse_line_breaks (nls 3 +:+ "c")).
Proof. apply collapse_splits_at_text. vm_compute. reflexivity. Defined.

(** X21. A run of [k] line breaks in front of a character that is no line
    break comes out as [min k 2] line breaks: one or two are kept, three or
    more become exactly two. *)
Theorem collapse_run_before_text (k : nat) (c : ascii) (b : string) :
  is_nl c = false ->
  collapse_line_breaks (nls k +:+ String c b)
  = nls (Nat.min k 2) +:+ String c (collapse_line_breaks b).
Proof.
  intros Hc. unfold collapse_line_breaks.
  rewrite (collapse_from_split (nls k) c b Hc), collapse_from_nls.
  now rewrite flush_run_min.
Qed.

Lemma collapse_run_before_text_witness :
  collapse_line_breaks (nls 5 +:+ String "x"%char "")
  = nls (Nat.min 5 2) +:+ String "x"%char (collapse_line_breaks "").
Proof. apply collapse_run_before_text. vm_compute. reflexivity. Defined.

(** ** Construction of the composite tool (lines 135-142) *)

(** X22. Built with a credential, the composite tool holds both adapters,
    and both carry the [max_results] it was given. *)
Theorem web_search_init_with_key (pk : packages) (max_results : Z)
    (key : string) (w : WebSearchTool) :
  WebSearchTool_init pk max_results (Some key) = Ret w ->
  ddg_max_results (ddg w) = max_results
  /\ exists t : TavilySearchTool,
       tavily w = Some t /\ tavily_max_results t = max_results.
Proof.
  unfold WebSearchTool_init, DuckDuckGoSearchTool_init, TavilySearchTool_init.
  destruct (import_or (import_DDGS pk) _) as [[d|e]|e]; simpl;
    try discriminate.
  destruct (import_or (import_TavilyClient pk) _) as [new_client|e]; simpl;
    try discriminate.
  destruct (new_client key) as [c|e]; simpl; try discriminate.
  intros [= <-]. simpl. eauto.
Qed.

Lemma web_search_init_with_key_witness :
  let w := {| ddg := Doubles.ddg_tool [];
              tavily := Some (Doubles.tavily_tool []) |} in
  ddg_max_results (ddg w) = 10
  /\ exists t : TavilySearchTool,
       tavily w = Some t /\ tavily_max_results t = 10.
Proof.
  intros w.
  apply (web_search_init_with_key
           (Doubles.installed (Doubles.ddgs_returning [])
              (Doubles.tavily_returning []) (Doubles.web_returning ""))
           10 "tvly-key" w).
  reflexivity.
Defined.

(** X23. Built without a credential, the composite tool needs the free
    provider's package only: whatever the import of [tavily] would do, the
    construction succeeds with the free-tier adapter and no keyed one. *)
Theorem web_search_init_without_key (pk : packages) (max_results : Z)
    (d : DDGS) :
  import_DDGS pk = Ret (Ret d) ->
  WebSearchTool_init pk max_results None
  = Ret {| ddg := {| ddg_max_results := max_results; ddgs := d |};
           tavily := None |}.
Proof.
  intros Hd. unfold WebSearchTool_init, DuckDuckGoSearchTool_init, import_or.
  rewrite Hd. reflexivity.
Qed.

Lemma web_search_init_without_key_witness :
  WebSearchTool_init (Cases.no_tavily (Doubles.ddgs_returning [])) 10 None
  = Ret {| ddg := {| ddg_max_results := 10;
                     ddgs := Doubles.ddgs_returning [] |};
           tavily := None |}.
Proof. apply web_search_init_without_key. reflexivity. Defined.

(** X24. Built with a credential while the package [tavily] cannot be
    imported, the composite tool is not constructed: the constructor raises
    the [ImportError] that asks to install [tavily-python], although the
    free-tier adapter could be built. *)
Theorem web_search_init_needs_tavily_package (pk : packages)
    (max_results : Z) (key : string) (d : DDGS) (e : exn) :
  import_DDGS pk = Ret (Ret d) ->
  import_TavilyClient pk = Raise e ->
  isinstance e Cls.ImportError = true ->
  WebSearchTool_init pk max_results (Some key)
  = Raise (new_ImportError
      "You must install package `tavily-python` to run this tool: for instance run `uv add tavily-python`.").
Proof.
  intros Hd Ht He.
  unfold WebSearchTool_init, DuckDuckGoSearchTool_init, TavilySearchTool_init,
    import_or.
  rewrite Hd, Ht, He. reflexivity.
Qed.

Lemma web_search_init_needs_tavily_package_witness :
  WebSearchTool_init (Cases.no_tavily (Doubles.ddgs_returning [])) 10
    (Some "tvly-key")
  = Raise (new_ImportError
      "You must install package `tavily-python` to run this tool: for instance run `uv add tavily-python`.").
Proof.
  apply (web_search_init_needs_tavily_package _ 10 "tvly-key"
           (Doubles.ddgs_returning [])
           (new_ImportError "No module named 'tavily'")).
  - reflexivity.
  - reflexivity.
  - vm_compute. reflexivity.
Defined.

(** ** The entry point *)

(** X25. When the entry point gets its tools built, they are the composite
    search tool with a cap of 10 results and the webpage tool with a bound
    of 1000 characters, in this order; the search tool has a keyed adapter
    exactly when [TAVILY_API_KEY] is set in the environment. *)
Theorem run_agent_tools_shape (pk : packages) (environ : gmap string string)
    (tools : list tool) :
  run_agent_tools pk environ = Ret tools ->
  exists w : WebSearchTool,
    tools = [WebSearch w; VisitWebpage {| max_output_length := 1000 |}]
    /\ ddg_max_results (ddg w) = 10
    /\ (is_Some (tavily w) <-> is_Some (environ !! "TAVILY_API_KEY")).
Proof.
  unfold run_agent_tools.
  destruct (WebSearchTool_init pk 10 (environ !! "TAVILY_API_KEY"))
    as [w|e] eqn:Hinit; simpl; [|discriminate].
  intros [= <-]. exists w. split; [reflexivity|].
  destruct (environ !! "TAVILY_API_KEY") as [key|].
  - unfold WebSearchTool_init in Hinit.
    destruct (DuckDuckGoSearchTool_init pk 10) as [d|e] eqn:Hd; simpl in Hinit;
      [|discriminate].
    destruct (TavilySearchTool_init pk key 10) as [t|e]; simpl in Hinit;
      [|discriminate].
    injection Hinit as <-. simpl.
    split; [|split; eauto].
    unfold DuckDuckGoSearchTool_init in Hd.
    destruct (import_or (import_DDGS pk) _) as [[c|e]|e]; simpl in Hd;
      try discriminate.
    now injection Hd as <-.
  - unfold WebSearchTool_init in Hinit.
    destruct (DuckDuckGoSearchTool_init pk 10) as [d|e] eqn:Hd; simpl in Hinit;
      [|discriminate].
    injection Hinit as <-. simpl.
    split; [|split; intros [? [=]]].
    unfold DuckDuckGoSearchTool_init in Hd.
    destruct (import_or (import_DDGS pk) _) as [[c|e]|e]; simpl in Hd;
      try discriminate.
    now injection Hd as <-.
Qed.

Lemma run_agent_tools_shape_witness :
  let w := {| ddg := Doubles.ddg_tool []; tavily := None |} in
  exists w' : WebSearchTool,
    [WebSearch w; VisitWebpage {| max_output_length := 1000 |}]
    = [WebSearch w'; VisitWebpage {| max_output_length := 1000 |}]
    /\ ddg_max_results (ddg w') = 10
    /\ (is_Some (tavily w')
        <-> is_Some (({[ "MODEL" := "gpt" ]} : gmap string string)
                       !! "TAVILY_API_KEY")).
Proof.
  intros w.
  apply (run_agent_tools_shape
           (Cases.no_tavily (Doubles.ddgs_returning []))
           {[ "MODEL" := "gpt" ]}).
  vm_compute. reflexivity.
Defined.
